(** * quant-ai: decision aggregation, candidate screening and risk scoring

    A shallow embedding of the decision logic of the quant-ai dashboard
    components, and the properties of it that the specification states.

    - [RiskGauge]      : the risk scorer ([calcMetrics], [riskLevel]).
    - [AgentDecisions] : the signal aggregator ([calcOverall]) and the holding
                         analyzer ([fetchAnalysis]) of the current panel.
    - [Legacy]         : the first version of the panel: five local analysts,
                         [buildStockAnalysis], and [fetchAll] with the buy
                         candidate screener.

    JavaScript numbers are modelled as exact rationals ([Q]); counts and the
    results of [Math.round] / [Math.ceil] are integers ([Z]).  Every division
    that the properties below depend on is guarded in the source by a
    positivity test, so the value JavaScript gives to a division by zero
    (Infinity or NaN) never enters them. *)

From Stdlib Require Import ZArith QArith Qround Qabs Qminmax Lia Lqa.
From Stdlib Require Import String List.
From stdpp Require Import gmap strings list.

Import ListNotations.

(** ** JavaScript number primitives *)

Module JS.

Local Open Scope Q_scope.

(** [x < y], [x > y], [x >= y], [x <= y] on numbers. *)
Definition ltb (x y : Q) : bool := negb (Qle_bool y x).
Definition gtb (x y : Q) : bool := ltb y x.
Definition leb (x y : Q) : bool := Qle_bool x y.
Definition geb (x y : Q) : bool := Qle_bool y x.

(** [Math.round]: nearest integer, a tie goes towards +Infinity. *)
Definition Math_round (x : Q) : Z := Qfloor (x + (1 # 2)).

(** [Math.ceil]. *)
Definition Math_ceil (x : Q) : Z := Qceiling x.

(** [Math.abs]. *)
Definition Math_abs (x : Q) : Q := Qabs x.

(** Binary [Math.min] / [Math.max]. *)
Definition Math_min (x y : Q) : Q := if Qle_bool x y then x else y.
Definition Math_max (x y : Q) : Q := if Qle_bool x y then y else x.

(** [Math.max(...xs)] for a non-empty argument list [x :: xs]. *)
Definition Math_max_of (x : Q) (xs : list Q) : Q := fold_left Math_max xs x.

(** [+x.toFixed(1)]: the nearest multiple of 1/10 to the magnitude of [x],
    the larger one on a tie, with the sign of [x]. *)
Definition toFixed1 (x : Q) : Q :=
  let n := Qfloor (Qabs x * 10 + (1 # 2)) in
  if ltb x 0 then inject_Z (- n) / 10 else inject_Z n / 10.

(** [xs.reduce((s, x) => s + f(x), 0)]. *)
Definition sum_by {A : Type} (f : A -> Q) (xs : list A) : Q :=
  fold_left (fun s x => s + f x) xs 0.

End JS.

(** ** Risk scorer (RiskGauge component) *)

Module RiskGauge.

Import JS.
Local Open Scope Q_scope.

Record Position := {
  code : string;
  name : string;
  cost : Q;
  shares : Q
}.

Record PortfolioSummary := {
  cash : Q;
  totalAssets : Q;
  totalMarketValue : Q;
  totalPnl : Q;
  todayPnl : Q;
  positions : list Position
}.

Record Metric := {
  label : string;
  value : Q;
  limit : Q;
  unit : string;
  isGood : bool;
  note : option string
}.

Record Scored := {
  score : Z;
  metrics : list Metric
}.

(** [calcMetrics] returns either the bare default metric array (no usable
    portfolio) or an object with a score and the metrics. *)
Inductive MetricsResult :=
| DefaultMetrics (ms : list Metric)
| ScoredMetrics (r : Scored).

Inductive RiskLevel := LowRisk | MediumRisk | HighRisk.

Definition mkMetric (l : string) (v lim : Q) (u : string) (g : bool) : Metric :=
  {| label := l; value := v; limit := lim; unit := u; isGood := g; note := None |}.

Definition defaultMetrics : list Metric :=
  [ mkMetric "最大回撤" 0 (-8) "%" true;
    mkMetric "仓位水平" 0 90 "%" true;
    mkMetric "集中度" 0 20 "%" true;
    mkMetric "波动率" 0 25 "%" true;
    mkMetric "止损警戒" 0 (-8) "%" true ].

(** [(totalMarketValue / totalAssets) * 100] *)
Definition positionRatio (p : PortfolioSummary) : Q :=
  (totalMarketValue p / totalAssets p) * 100.

(** [positions.length > 0 ? Math.max(...positions.map(p => p.shares * p.cost)) : 0] *)
Definition maxPositionValue (p : PortfolioSummary) : Q :=
  match List.map (fun x => shares x * cost x) (positions p) with
  | [] => 0
  | v :: vs => Math_max_of v vs
  end.

(** [(maxPositionValue / totalAssets) * 100] *)
Definition concentration (p : PortfolioSummary) : Q :=
  (maxPositionValue p / totalAssets p) * 100.

(** [positions.reduce((s, p) => s + p.shares * p.cost, 0)] *)
Definition totalCost (p : PortfolioSummary) : Q :=
  sum_by (fun x => shares x * cost x) (positions p).

(** [totalCost > 0 ? (totalPnl / totalCost) * 100 : 0] *)
Definition currentPnlPct (p : PortfolioSummary) : Q :=
  if gtb (totalCost p) 0 then (totalPnl p / totalCost p) * 100 else 0.

(** The body of the score computation: [let score = 20] followed by the
    three tiered [if / else if] increments. *)
Definition rawScore (positionRatio concentration currentPnlPct : Q) : Z :=
  let score := 20%Z in
  let score :=
    if gtb positionRatio 85 then (score + 20)%Z
    else if gtb positionRatio 70 then (score + 10)%Z
    else score in
  let score :=
    if gtb concentration 50 then (score + 25)%Z
    else if gtb concentration 30 then (score + 10)%Z
    else score in
  let score :=
    if ltb currentPnlPct (-5) then (score + 20)%Z
    else if ltb currentPnlPct (-3) then (score + 10)%Z
    else score in
  score.

Definition calcMetrics (portfolio : option PortfolioSummary) : MetricsResult :=
  match portfolio with
  | None => DefaultMetrics defaultMetrics
  | Some p =>
    if leb (totalAssets p) 0 then DefaultMetrics defaultMetrics
    else
      let positionRatio := positionRatio p in
      let concentration := concentration p in
      let currentPnlPct := currentPnlPct p in
      let score := rawScore positionRatio concentration currentPnlPct in
      let n := List.length (positions p) in
      ScoredMetrics {|
        score := Z.min score 100;
        metrics :=
          [ mkMetric "持仓盈亏" (toFixed1 currentPnlPct) (-8) "%"
              (geb currentPnlPct (-5));
            mkMetric "仓位水平" (toFixed1 positionRatio) 90 "%"
              (ltb positionRatio 90);
            mkMetric "持仓集中度" (toFixed1 concentration) 50 "%"
              (ltb concentration 50);
            mkMetric "止损警戒" (toFixed1 currentPnlPct) (-8) "%"
              (gtb currentPnlPct (-8));
            {| label := "持仓标的数"; value := inject_Z (Z.of_nat n);
               limit := 1; unit := "只"; isGood := (3 <=? n)%nat;
               note := Some (if (n <? 3)%nat then "建议分散" else "已分散") |} ]
      |}
  end.

(** [typeof result === 'number' ? result : result.score ?? 35]: the default
    array has no [score] property. *)
Definition targetScore (portfolio : option PortfolioSummary) : Z :=
  match calcMetrics portfolio with
  | DefaultMetrics _ => 35%Z
  | ScoredMetrics r => score r
  end.

(** [riskScore < 30 ? low : riskScore < 60 ? medium : high] *)
Definition riskLevel (riskScore : Z) : RiskLevel :=
  if (riskScore <? 30)%Z then LowRisk
  else if (riskScore <? 60)%Z then MediumRisk
  else HighRisk.

End RiskGauge.

(** ** Signal aggregator and holding analyzer (current AgentDecisions panel) *)

Module AgentDecisions.

Import JS.
Local Open Scope Q_scope.

Inductive Signal := Bullish | Bearish | Neutral.

#[global] Instance Signal_eq_dec : EqDecision Signal.
Proof. solve_decision. Defined.

Record LLMSignal := {
  signal : Signal;
  confidence : Q;
  reasoning : string
}.

(** An object used as a map from property name to value. *)
Abbreviation Record_ V := (gmap string V).

(** [Object.values(o)] *)
Definition Object_values {V : Type} (o : Record_ V) : list V :=
  (map_to_list o).*2.

Module Overall.
Record t := {
  signal : Signal;
  confidence : Z;
  bullish : Z;
  bearish : Z;
  neutral : Z
}.
End Overall.

Definition calcOverall (agentSignals : Record_ LLMSignal) : Overall.t :=
  let vals := Object_values agentSignals in
  let len := Z.of_nat (List.length vals) in
  if (len =? 0)%Z then
    {| Overall.signal := Neutral; Overall.confidence := 0;
       Overall.bullish := 0; Overall.bearish := 0; Overall.neutral := 0 |}
  else
    let bullish :=
      Z.of_nat (List.length
        (List.filter (fun v => bool_decide (signal v = Bullish)) vals)) in
    let bearish :=
      Z.of_nat (List.length
        (List.filter (fun v => bool_decide (signal v = Bearish)) vals)) in
    let neutral := (len - bullish - bearish)%Z in
    let majority := Math_ceil (inject_Z len / 2) in
    let signal :=
      if (bullish >=? majority)%Z then Bullish
      else if (bearish >=? majority)%Z then Bearish
      else Neutral in
    let confidence :=
      Math_round (sum_by confidence vals / inject_Z len) in
    {| Overall.signal := signal; Overall.confidence := confidence;
       Overall.bullish := bullish; Overall.bearish := bearish;
       Overall.neutral := neutral |}.

Module StockQuote.
Record t := {
  code : string;
  current : Q;
  percent : Q;
  chg : Q;
  high : Q;
  low : Q;
  open : Q;
  last_close : Q;
  pe_ttm : option Q;
  pb : option Q
}.
End StockQuote.

Module Holding.
Record t := {
  code : string;
  name : string;
  cost : Q;
  shares : option Q
}.
End Holding.

Module HoldingAnalysis.
Record t := {
  code : string;
  name : string;
  price : Q;
  change : Q;
  pnlPct : Q;
  overallSignal : Signal;
  overallConfidence : Z;
  agentSignals : Record_ LLMSignal
}.
End HoldingAnalysis.

(** The loop [for (const [agentName, signals] of Object.entries(agentSignalsMap))
    if (signals[code]) agentSignals[agentName] = signals[code]],
    started from the empty object. *)
Definition collectSignals (agentSignalsMap : Record_ (Record_ LLMSignal))
    (code : string) : Record_ LLMSignal :=
  map_fold
    (fun agentName signals agentSignals =>
       match signals !! code with
       | Some s => <[agentName := s]> agentSignals
       | None => agentSignals
       end)
    ∅ agentSignalsMap.

(** The callback of [holdings.map] in [fetchAnalysis]. *)
Definition analyzeHolding (allQuotes : list StockQuote.t)
    (agentSignalsMap : Record_ (Record_ LLMSignal))
    (h : Holding.t) : HoldingAnalysis.t :=
  let q := List.find (fun d => String.eqb (StockQuote.code d) (Holding.code h))
             allQuotes in
  let price := match q with Some d => StockQuote.current d | None => 0 end in
  let change := match q with Some d => StockQuote.percent d | None => 0 end in
  let pnlPct :=
    if gtb (Holding.cost h) 0
    then ((price - Holding.cost h) / Holding.cost h) * 100
    else 0 in
  let agentSignals := collectSignals agentSignalsMap (Holding.code h) in
  let overall := calcOverall agentSignals in
  {| HoldingAnalysis.code := Holding.code h;
     HoldingAnalysis.name := Holding.name h;
     HoldingAnalysis.price := price;
     HoldingAnalysis.change := change;
     HoldingAnalysis.pnlPct := pnlPct;
     HoldingAnalysis.overallSignal := Overall.signal overall;
     HoldingAnalysis.overallConfidence := Overall.confidence overall;
     HoldingAnalysis.agentSignals := agentSignals |}.

(** Responses of the three endpoints [fetchAnalysis] awaits. *)
Record QuoteResponse := {
  quote_success : bool;
  quote_data : list StockQuote.t
}.

Record AgentResponse := {
  agent_success : bool;
  agent_error : option string;
  agent_data : option (Record_ (Record_ LLMSignal))
}.

(** A settled promise: rejected with a message, or resolved. *)
Inductive Fetched (A : Type) :=
| Rejected (message : string)
| Resolved (a : A).
Arguments Rejected {A} message.
Arguments Resolved {A} a.

Record Gateway := {
  fetch_quote : Fetched QuoteResponse;
  fetch_agents : Fetched AgentResponse;
  fetch_market : Fetched unit
}.

(** The part of the component state that [fetchAnalysis] writes. *)
Record State := {
  analyses : list HoldingAnalysis.t;
  loading : bool;
  error : option string
}.

Definition initialState : State :=
  {| analyses := []; loading := false; error := None |}.

Definition setAnalyses (v : list HoldingAnalysis.t) (st : State) : State :=
  {| analyses := v; loading := loading st; error := error st |}.
Definition setLoading (v : bool) (st : State) : State :=
  {| analyses := analyses st; loading := v; error := error st |}.
Definition setError (v : option string) (st : State) : State :=
  {| analyses := analyses st; loading := loading st; error := v |}.

(** [s || fallback] for an optional string (the empty string is falsy). *)
Definition or_default (s : option string) (fallback : string) : string :=
  match s with
  | Some m => if String.eqb m "" then fallback else m
  | None => fallback
  end.

(** The [try] block of [fetchAnalysis]; [inl msg] is a thrown error. *)
Definition fetchAnalysis_try (holdings : list Holding.t) (gw : Gateway)
    (st : State) : string + State :=
  match fetch_quote gw, fetch_agents gw, fetch_market gw with
  | Rejected m, _, _ | _, Rejected m, _ | _, _, Rejected m => inl m
  | Resolved quoteData, Resolved agentData, Resolved _ =>
    if negb (agent_success agentData) then
      inr (setError (Some (or_default (agent_error agentData) "后端返回错误")) st)
    else
      let allQuotes :=
        if quote_success quoteData then quote_data quoteData else [] in
      let agentSignalsMap :=
        match agent_data agentData with Some m => m | None => ∅ end in
      let results :=
        List.map (analyzeHolding allQuotes agentSignalsMap) holdings in
      inr (setAnalyses results st)
  end.

Definition fetchAnalysis (holdings : list Holding.t) (gw : Gateway)
    (st : State) : State :=
  match holdings with
  | [] => st
  | _ :: _ =>
    let st := setError None (setLoading true st) in
    let st :=
      match fetchAnalysis_try holdings gw st with
      | inr st' => st'
      | inl message => setError (Some (or_default (Some message) "网络异常")) st
      end in
    setLoading false st
  end.

End AgentDecisions.

(** ** First version of the panel: local analysts and the buy-candidate screener *)

Module Legacy.

Import JS.
Local Open Scope Q_scope.

Module StockQuote.
Record t := {
  code : string;
  current : Q;
  percent : Q;
  chg : Q;
  high : Q;
  low : Q;
  open : Q;
  last_close : Q
}.
End StockQuote.

Inductive Action := buy | sell | hold.

#[global] Instance Action_eq_dec : EqDecision Action.
Proof. solve_decision. Defined.

(** Presentation fields ([icon], [color], [bgColor]) and the rationale
    strings ([points]) are left out. *)
Module AgentAnalysis.
Record t := {
  agent : string;
  signal : Action;
  confidence : Q
}.
End AgentAnalysis.

Module StockAnalysis.
Record t := {
  code : string;
  name : string;
  price : Q;
  change : Q;
  pnlPct : Q;
  overallSignal : Action;
  overallConfidence : Z;
  agents : list AgentAnalysis.t
}.
End StockAnalysis.

Module Holding.
Record t := {
  code : string;
  name : string;
  cost : Q
}.
End Holding.

Definition HOLDINGS : list Holding.t :=
  [ {| Holding.code := "300394"; Holding.name := "天孚通信"; Holding.cost := 280.50 |};
    {| Holding.code := "002916"; Holding.name := "深南电路"; Holding.cost := 220.00 |};
    {| Holding.code := "600183"; Holding.name := "生益科技"; Holding.cost := 58.30 |};
    {| Holding.code := "300308"; Holding.name := "中际旭创"; Holding.cost := 510.00 |};
    {| Holding.code := "002463"; Holding.name := "沪电股份"; Holding.cost := 65.40 |};
    {| Holding.code := "300502"; Holding.name := "新易盛"; Holding.cost := 350.00 |} ].

(** The market response is untyped in the source; a property that may be
    missing is an [option], and a comparison with a missing number is false. *)
Module Sector.
Record t := {
  code : string;
  name : string;
  change_pct : option Q;
  net_inflow : option Q
}.
End Sector.

Record MarketData := {
  success : bool;
  (** [marketData?.indices?.['000001']?.change_pct] *)
  sh_change_pct : option Q;
  (** [marketData?.sectors ?? []] *)
  sectors : list Sector.t
}.

(** The empty object [{}] passed on when the market request did not succeed. *)
Definition emptyMarketData : MarketData :=
  {| success := false; sh_change_pct := None; sectors := [] |}.

Definition opt_gtb (x : option Q) (y : Q) : bool :=
  match x with Some v => gtb v y | None => false end.
Definition opt_ltb (x : option Q) (y : Q) : bool :=
  match x with Some v => ltb v y | None => false end.

(** [score >= 2 ? 'buy' : score <= -2 ? 'sell' : 'hold'] *)
Definition signalOf (buyAt : Z) (score : Z) : Action :=
  if (score >=? buyAt)%Z then buy
  else if (score <=? -2)%Z then sell
  else hold.

(** [Math.min(cap, base + Math.abs(score) * step)] *)
Definition confidenceOf (cap base step : Z) (score : Z) : Q :=
  inject_Z (Z.min cap (base + Z.abs score * step)).

Definition runMarketAnalyst (q : StockQuote.t) (marketData : MarketData)
    : AgentAnalysis.t :=
  let score := 0%Z in
  let shChange := match sh_change_pct marketData with Some v => v | None => 0 end in
  let score :=
    if gtb shChange 0.5 then (score + 2)%Z
    else if ltb shChange (-0.5) then (score - 2)%Z
    else score in
  let sectors := sectors marketData in
  let score :=
    match sectors with
    | topSector :: _ =>
      (* [q.change] is not a property of a quote: [undefined > 0] is false *)
      let inSector := gtb (StockQuote.percent q) 0 && false in
      if inSector then (score + 1)%Z else score
    | [] => score
    end in
  let upSectors :=
    List.length (List.filter (fun s => opt_gtb (Sector.change_pct s) 0) sectors) in
  let ratio :=
    if (0 <? List.length sectors)%nat
    then inject_Z (Z.of_nat upSectors) / inject_Z (Z.of_nat (List.length sectors))
    else 0.5 in
  let score :=
    if gtb ratio 0.7 then (score + 1)%Z
    else if ltb ratio 0.3 then (score - 1)%Z
    else score in
  {| AgentAnalysis.agent := "MarketAnalyst";
     AgentAnalysis.signal := signalOf 2 score;
     AgentAnalysis.confidence := confidenceOf 85 55 8 score |}.

Definition runTechAnalyst (q : StockQuote.t) : AgentAnalysis.t :=
  let score := 0%Z in
  let dayRange :=
    if gtb (StockQuote.high q) (StockQuote.low q)
    then ((StockQuote.current q - StockQuote.low q)
            / (StockQuote.high q - StockQuote.low q)) * 100
    else 50 in
  let score :=
    if gtb dayRange 75 then (score + 1)%Z
    else if ltb dayRange 25 then (score - 1)%Z
    else score in
  let percent := StockQuote.percent q in
  let score :=
    if gtb percent 5 then (score + 2)%Z
    else if gtb percent 2 then (score + 1)%Z
    else if ltb percent (-5) then (score - 2)%Z
    else if ltb percent (-2) then (score - 1)%Z
    else score in
  {| AgentAnalysis.agent := "TechAnalyst";
     AgentAnalysis.signal := signalOf 2 score;
     AgentAnalysis.confidence := confidenceOf 88 58 8 score |}.

Definition runFundAnalyst (q : StockQuote.t) (h : Holding.t) : AgentAnalysis.t :=
  let score := 0%Z in
  let pnlPct := ((StockQuote.current q - Holding.cost h) / Holding.cost h) * 100 in
  let score :=
    if gtb pnlPct 30 then (score - 1)%Z
    else if gtb pnlPct 10 then (score + 1)%Z
    else if gtb pnlPct 0 then score
    else if ltb pnlPct (-10) then (score - 2)%Z
    else score in
  {| AgentAnalysis.agent := "FundAnalyst";
     AgentAnalysis.signal := signalOf 1 score;
     AgentAnalysis.confidence := confidenceOf 80 52 8 score |}.

Definition runSentimentAnalyst (q : StockQuote.t) (marketData : MarketData)
    : AgentAnalysis.t :=
  let score := 0%Z in
  let percent := StockQuote.percent q in
  let score :=
    if gtb percent 7 then (score + 2)%Z
    else if gtb percent 3 then (score + 1)%Z
    else if ltb percent (-5) then (score - 1)%Z
    else score in
  let score :=
    match sectors marketData with
    | topSector :: _ =>
      if opt_gtb (Sector.net_inflow topSector) 5e8 then (score + 1)%Z else score
    | [] => score
    end in
  let sh := sh_change_pct marketData in
  let score :=
    if opt_gtb sh 1 then (score + 1)%Z
    else if opt_ltb sh (-1) then (score - 1)%Z
    else score in
  {| AgentAnalysis.agent := "SentimentAnalyst";
     AgentAnalysis.signal := signalOf 2 score;
     AgentAnalysis.confidence := confidenceOf 82 52 9 score |}.

Definition runRiskManager (q : StockQuote.t) (h : Holding.t)
    (allQuotes : list StockQuote.t) : AgentAnalysis.t :=
  let score := 0%Z in
  let pnlPct := ((StockQuote.current q - Holding.cost h) / Holding.cost h) * 100 in
  let amplitude :=
    if gtb (StockQuote.high q) 0
    then ((StockQuote.high q - StockQuote.low q) / StockQuote.last_close q) * 100
    else 0 in
  let score :=
    if gtb pnlPct 25 then (score - 2)%Z
    else if gtb pnlPct 15 then (score - 1)%Z
    else score in
  let score :=
    if ltb pnlPct (-8) then (score - 3)%Z
    else if ltb pnlPct (-5) then (score - 1)%Z
    else score in
  let score := if gtb amplitude 6 then (score - 1)%Z else score in
  {| AgentAnalysis.agent := "RiskManager";
     AgentAnalysis.signal :=
       if (score <=? -3)%Z then sell
       else if (score <=? -1)%Z then hold
       else hold;
     AgentAnalysis.confidence := confidenceOf 85 60 6 score |}.

Definition buildStockAnalysis (q : StockQuote.t) (h : Holding.t)
    (marketData : MarketData) (allQuotes : list StockQuote.t) : StockAnalysis.t :=
  let pnlPct := ((StockQuote.current q - Holding.cost h) / Holding.cost h) * 100 in
  let agents :=
    [ runMarketAnalyst q marketData;
      runTechAnalyst q;
      runFundAnalyst q h;
      runSentimentAnalyst q marketData;
      runRiskManager q h allQuotes ] in
  let votes (a : Action) :=
    List.length
      (List.filter (fun x => bool_decide (AgentAnalysis.signal x = a)) agents) in
  let buyVotes := votes buy in
  let sellVotes := votes sell in
  let overallSignal :=
    if (3 <=? sellVotes)%nat then sell
    else if (3 <=? buyVotes)%nat then buy
    else hold in
  let overallConfidence :=
    Math_round (sum_by AgentAnalysis.confidence agents
                  / inject_Z (Z.of_nat (List.length agents))) in
  {| StockAnalysis.code := StockQuote.code q;
     StockAnalysis.name := Holding.name h;
     StockAnalysis.price := StockQuote.current q;
     StockAnalysis.change := StockQuote.percent q;
     StockAnalysis.pnlPct := pnlPct;
     StockAnalysis.overallSignal := overallSignal;
     StockAnalysis.overallConfidence := overallConfidence;
     StockAnalysis.agents := agents |}.

(** [holdings.map(h => { const q = allQuotes.find(..); if (!q) return null;
    return buildStockAnalysis(..) }).filter(Boolean)] *)
Definition analyzeHoldings (holdings : list Holding.t)
    (allQuotes : list StockQuote.t) (marketData : MarketData)
    : list StockAnalysis.t :=
  omap
    (fun h =>
       match List.find (fun d => String.eqb (StockQuote.code d) (Holding.code h))
               allQuotes with
       | None => None
       | Some q => Some (buildStockAnalysis q h marketData allQuotes)
       end)
    holdings.

(** *** Buy-candidate screener *)

Module SectorStock.
Record t := {
  code : string;
  name : string;
  price : Q;
  changePct : Q;
  mainNetInflow : Q
}.
End SectorStock.

(** The formatted [reasons] strings are left out. *)
Module BuyCandidate.
Record t := {
  code : string;
  name : string;
  price : Q;
  change : Q;
  sectorName : string;
  score : Q
}.
End BuyCandidate.

(** [Array.prototype.sort(cmp)]: the sort is stable, and for a comparator
    that is a consistent ordering its result is the one of a stable
    insertion sort.  [cmp a b > 0] places [a] after [b]. *)
Section Sort.
Context {A : Type} (cmp : A -> A -> Q).

Fixpoint insert_sorted (x : A) (l : list A) : list A :=
  match l with
  | [] => [x]
  | y :: l' => if gtb (cmp x y) 0 then y :: insert_sorted x l' else x :: l
  end.

Definition sort (l : list A) : list A := fold_right insert_sorted [] l.
End Sort.

(** [new Set(holdings.map(h => h.code))] *)
Definition holdingCodes (holdings : list Holding.t) : gset string :=
  list_to_set (List.map Holding.code holdings).

(** [sectorData.stocks.filter(s => !holdingCodes.has(s.code))] *)
Definition available (holdings : list Holding.t) (stocks : list SectorStock.t)
    : list SectorStock.t :=
  let holdingCodes := holdingCodes holdings in
  List.filter (fun s => negb (bool_decide (SectorStock.code s ∈ holdingCodes)))
    stocks.

(** [s.changePct > 1 && s.changePct < 9 && s.mainNetInflow > 0] *)
Definition eligible (s : SectorStock.t) : bool :=
  gtb (SectorStock.changePct s) 1 && ltb (SectorStock.changePct s) 9
  && gtb (SectorStock.mainNetInflow s) 0.

(** [available.filter(eligible).sort((a, b) => b.mainNetInflow - a.mainNetInflow)] *)
Definition candidates (available : list SectorStock.t) : list SectorStock.t :=
  sort (fun a b => SectorStock.mainNetInflow b - SectorStock.mainNetInflow a)
    (List.filter eligible available).

(** [candidates[0] || available[0]] *)
Definition pick (holdings : list Holding.t) (stocks : list SectorStock.t)
    : option SectorStock.t :=
  let available := available holdings stocks in
  let candidates := candidates available in
  match candidates !! 0%nat with
  | Some c => Some c
  | None => available !! 0%nat
  end.

(** [Math.min(85, 60 + pick.mainNetInflow / 1e8 * 2)] *)
Definition scoreOf (pick : SectorStock.t) : Q :=
  Math_min 85 (60 + SectorStock.mainNetInflow pick / 1e8 * 2).

Definition mkBuyCandidate (topSector : Sector.t) (pick : SectorStock.t)
    : BuyCandidate.t :=
  {| BuyCandidate.code := SectorStock.code pick;
     BuyCandidate.name := SectorStock.name pick;
     BuyCandidate.price := SectorStock.price pick;
     BuyCandidate.change := SectorStock.changePct pick;
     BuyCandidate.sectorName := Sector.name topSector;
     BuyCandidate.score := scoreOf pick |}.

(** *** The periodic refresh [fetchAll] *)

Record QuoteResponse := {
  quote_success : bool;
  quote_data : option (list StockQuote.t)
}.

Record SectorResponse := {
  sector_success : bool;
  stocks : list SectorStock.t
}.

(** A settled request: [None] when the promise rejects. *)
Record Gateway := {
  fetch_quote : option QuoteResponse;
  fetch_market : option MarketData;
  (** [/api/sector-stocks?code=...&limit=15] *)
  fetch_sector_stocks : string -> option SectorResponse
}.

Record State := {
  analyses : list StockAnalysis.t;
  buyCandidate : option BuyCandidate.t;
  loading : bool
}.

Definition initialState : State :=
  {| analyses := []; buyCandidate := None; loading := true |}.

Definition setAnalyses (v : list StockAnalysis.t) (st : State) : State :=
  {| analyses := v; buyCandidate := buyCandidate st; loading := loading st |}.
Definition setBuyCandidate (v : option BuyCandidate.t) (st : State) : State :=
  {| analyses := analyses st; buyCandidate := v; loading := loading st |}.
Definition setLoading (v : bool) (st : State) : State :=
  {| analyses := analyses st; buyCandidate := buyCandidate st; loading := v |}.

(** State updates and exceptions of the [try] block: a computation returns
    the state reached, and a value unless an exception was thrown. *)
Definition M (A : Type) : Type := State -> State * option A.

#[global] Instance M_ret : MRet M := fun A a st => (st, Some a).

#[global] Instance M_bind : MBind M := fun A B k m st =>
  match m st with
  | (st', Some a) => k a st'
  | (st', None) => (st', None)
  end.

Definition await {A : Type} (r : option A) : M A := fun st => (st, r).

Definition modify (f : State -> State) : M unit := fun st => (f st, Some tt).

Definition when (b : bool) (m : M unit) : M unit := if b then m else mret tt.

(** The block guarded by [quoteData.success && quoteData.data]. *)
Definition refreshAnalyses (quoteData : QuoteResponse) (marketData : MarketData)
    : M unit :=
  match quote_success quoteData, quote_data quoteData with
  | true, Some allQuotes =>
    modify (setAnalyses
      (analyzeHoldings HOLDINGS allQuotes
         (if success marketData then marketData else emptyMarketData)))
  | _, _ => mret tt
  end.

(** The block guarded by [marketData.success && marketData.sectors?.[0]]. *)
Definition refreshBuyCandidate (gw : Gateway) (marketData : MarketData) : M unit :=
  match (if success marketData then head (sectors marketData) else None) with
  | Some topSector =>
    sectorData ← await (fetch_sector_stocks gw (Sector.code topSector));
    when (sector_success sectorData)
      match pick HOLDINGS (stocks sectorData) with
      | Some p => modify (setBuyCandidate (Some (mkBuyCandidate topSector p)))
      | None => mret tt
      end
  | None => mret tt
  end.

Definition fetchAll_try (gw : Gateway) : M unit :=
  quoteData ← await (fetch_quote gw);
  marketData ← await (fetch_market gw);
  refreshAnalyses quoteData marketData;;
  refreshBuyCandidate gw marketData.

(** [try { ... } catch (e) { console.error(e) } finally { setLoading(false) }] *)
Definition fetchAll (gw : Gateway) (st : State) : State :=
  setLoading false (fetchAll_try gw st).1.

(** The state after the refreshes served by the gateways [gws], in order. *)
Definition run (gws : list Gateway) (st : State) : State :=
  fold_left (fun st gw => fetchAll gw st) gws st.

End Legacy.

(** ** The risk scoring rule in the words of the specification *)

Module RiskGaugeSpec.

Import JS RiskGauge.
Local Open Scope Q_scope.

Definition clamp (lo hi x : Z) : Z := Z.max lo (Z.min hi x).

Definition exposure_increment (ratio : Q) : Z :=
  if Qlt_le_dec 85 ratio then 20 else if Qlt_le_dec 70 ratio then 10 else 0.

Definition concentration_increment (c : Q) : Z :=
  if Qlt_le_dec 50 c then 25 else if Qlt_le_dec 30 c then 10 else 0.

Definition loss_increment (pnlPct : Q) : Z :=
  if Qlt_le_dec pnlPct (-5) then 20 else if Qlt_le_dec pnlPct (-3) then 10 else 0.

Definition risk_score_spec (ratio c pnlPct : Q) : Z :=
  clamp 0 100
    (20 + exposure_increment ratio + concentration_increment c
        + loss_increment pnlPct).

Definition risk_level_spec (s : Z) : RiskLevel :=
  if Z_lt_dec s 30 then LowRisk
  else if Z_lt_dec s 60 then MediumRisk
  else HighRisk.

(** The account summary a broker reports for positions given with their
    current prices: market value and unrealised P&L are the sums over the
    positions. *)
Definition summaryOf (totalAssets : Q) (held : list (Q * Q * Q))
    : PortfolioSummary :=
  {| cash := totalAssets - sum_by (fun '(c, n, px) => n * px) held;
     totalAssets := totalAssets;
     totalMarketValue := sum_by (fun '(c, n, px) => n * px) held;
     totalPnl := sum_by (fun '(c, n, px) => n * (px - c)) held;
     todayPnl := 0;
     positions :=
       List.map (fun '(c, n, px) =>
                   {| code := ""; name := ""; cost := c; shares := n |}) held |}.

(** holdings = [{cost:100, shares:10, currentPrice:130}], totalAssets = 2000 *)
Definition scenario : PortfolioSummary := summaryOf 2000 [(100, 10, 130)].

(** The same account with the cost basis spread over two equal positions. *)
Definition spread : PortfolioSummary :=
  summaryOf 2000 [(100, 5, 130); (100, 5, 130)].

(** A nearly fully invested account with one losing position. *)
Definition concentrated_loss : PortfolioSummary :=
  summaryOf 1000 [(100, 8, 87.5); (50, 4, 50)].

End RiskGaugeSpec.

(** ** The aggregation rule in the words of the specification *)

Module AggregatorSpec.

Import JS AgentDecisions.
Local Open Scope Q_scope.

(** Number of verdicts present with signal [s]. *)
Definition votes (s : Signal) (verdicts : gmap string LLMSignal) : Z :=
  Z.of_nat (size (filter (fun kv : string * LLMSignal => signal kv.2 = s) verdicts)).

(** [m] is ceil(n / 2): the least integer with [n <= 2 m]. *)
Definition is_ceil_half (n m : Z) : Prop := (n <= 2 * m < n + 2)%Z.

Definition total_confidence (verdicts : gmap string LLMSignal) : Q :=
  foldr (fun v s => confidence v + s) 0 (Object_values verdicts).

(** Arithmetic mean of the confidences of the verdicts present. *)
Definition mean_confidence (verdicts : gmap string LLMSignal) : Q :=
  total_confidence verdicts / inject_Z (Z.of_nat (size verdicts)).

(** [c] is [x] rounded to the nearest integer (the upper one on a tie). *)
Definition is_nearest_integer (x : Q) (c : Z) : Prop :=
  x - (1 # 2) < inject_Z c /\ inject_Z c <= x + (1 # 2).

Definition majority_signal (majority bullish bearish : Z) : Signal :=
  if decide (majority <= bullish)%Z then Bullish
  else if decide (majority <= bearish)%Z then Bearish
  else Neutral.

Definition verdict (s : Signal) (c : Q) : LLMSignal :=
  {| signal := s; confidence := c; reasoning := "" |}.

(** Five verdicts: 3 bullish, 1 bearish, 1 neutral. *)
Definition verdicts_3_1_1 : gmap string LLMSignal :=
  list_to_map
    [ ("WarrenBuffett", verdict Bullish 80); ("CharlieMunger", verdict Bullish 70);
      ("BenGraham", verdict Bearish 60); ("PeterLynch", verdict Bullish 75);
      ("RiskManager", verdict Neutral 50) ].

(** Five verdicts: 2 bullish, 2 bearish, 1 neutral. *)
Definition verdicts_2_2_1 : gmap string LLMSignal :=
  list_to_map
    [ ("WarrenBuffett", verdict Bullish 80); ("CharlieMunger", verdict Bearish 70);
      ("BenGraham", verdict Bearish 60); ("PeterLynch", verdict Bullish 75);
      ("RiskManager", verdict Neutral 50) ].

(** A backend answer in which [BenGraham] returned nothing for "600183". *)
Definition partial_panel : gmap string (gmap string LLMSignal) :=
  list_to_map
    [ ("WarrenBuffett", {[ "600183" := verdict Bullish 70 ]});
      ("BenGraham", {[ "300308" := verdict Bearish 55 ]});
      ("RiskManager", {[ "600183" := verdict Neutral 40;
                         "300308" := verdict Neutral 45 ]}) ].

End AggregatorSpec.

(** ** Inputs used to exercise the holding analyzers *)

Module AnalyzerScenarios.

Import JS.
Local Open Scope Q_scope.

(** One holding, and a quote batch that resolves no quote for it. *)
Definition held : AgentDecisions.Holding.t :=
  {| AgentDecisions.Holding.code := "600183";
     AgentDecisions.Holding.name := "生益科技";
     AgentDecisions.Holding.cost := 58.30;
     AgentDecisions.Holding.shares := Some 100 |}.

Definition no_quotes : AgentDecisions.Gateway :=
  {| AgentDecisions.fetch_quote :=
       AgentDecisions.Resolved
         {| AgentDecisions.quote_success := true;
            AgentDecisions.quote_data := [] |};
     AgentDecisions.fetch_agents :=
       AgentDecisions.Resolved
         {| AgentDecisions.agent_success := true;
            AgentDecisions.agent_error := None;
            AgentDecisions.agent_data := Some AggregatorSpec.partial_panel |};
     AgentDecisions.fetch_market := AgentDecisions.Resolved tt |}.

(** A quote for 600183 only, as the first version of the panel receives it. *)
Definition quote_600183 : Legacy.StockQuote.t :=
  {| Legacy.StockQuote.code := "600183"; Legacy.StockQuote.current := 60;
     Legacy.StockQuote.percent := 2.5; Legacy.StockQuote.chg := 1.5;
     Legacy.StockQuote.high := 61; Legacy.StockQuote.low := 58;
     Legacy.StockQuote.open := 58.5; Legacy.StockQuote.last_close := 58.5 |}.

Definition held_300394 : Legacy.Holding.t :=
  {| Legacy.Holding.code := "300394"; Legacy.Holding.name := "天孚通信";
     Legacy.Holding.cost := 280.50 |}.

End AnalyzerScenarios.

(** ** The screening rule in the words of the specification *)

Module ScreenerSpec.

Import JS Legacy.
Local Open Scope Q_scope.

(** Percent change strictly between 1 and 9, and net inflow strictly positive. *)
Definition Eligible (s : SectorStock.t) : Prop :=
  1 < SectorStock.changePct s /\ SectorStock.changePct s < 9
  /\ 0 < SectorStock.mainNetInflow s.

(** min(85, 60 + inflow / 1e8 x 2) *)
Definition composite_score_spec (netInflow : Q) : Q :=
  Qmin 85 (60 + netInflow / 100000000 * 2).

Definition stock (code : string) (changePct mainNetInflow : Q) : SectorStock.t :=
  {| SectorStock.code := code; SectorStock.name := code; SectorStock.price := 10;
     SectorStock.changePct := changePct;
     SectorStock.mainNetInflow := mainNetInflow |}.

(** A sector on a falling day: one held stock and two others, none eligible. *)
Definition falling_sector : list SectorStock.t :=
  [ stock "300308" 3 250000000; stock "688981" (-2) (-100000000);
    stock "603986" 0.5 30000000 ].

(** Two sectors whose first not-held stock has a net outflow. *)
Definition weak_outflow : SectorStock.t := stock "688981" (-2) (-100000000).
Definition strong_outflow : SectorStock.t := stock "603986" (-3) (-200000000).

Definition held_300308 : Holding.t :=
  {| Holding.code := "300308"; Holding.name := "中际旭创"; Holding.cost := 510.00 |}.

Definition top_sector : Sector.t :=
  {| Sector.code := "BK1036"; Sector.name := "半导体";
     Sector.change_pct := None; Sector.net_inflow := None |}.

Definition market : MarketData :=
  {| success := true; sh_change_pct := None; sectors := [top_sector] |}.

(** A gateway that answers every request: [quotes] for the holdings and
    [sectorStocks] for any sector. *)
Definition gateway (quotes : list StockQuote.t)
    (sectorStocks : list SectorStock.t) : Gateway :=
  {| fetch_quote := Some {| quote_success := true; quote_data := Some quotes |};
     fetch_market := Some market;
     fetch_sector_stocks := fun _ =>
       Some {| sector_success := true; stocks := sectorStocks |} |}.

(** The buy candidate, if any, is not a held stock. *)
Definition not_held (st : State) : Prop :=
  forall c h, buyCandidate st = Some c -> h ∈ HOLDINGS ->
    BuyCandidate.code c <> Holding.code h.

End ScreenerSpec.

(** ** What the risk gauge renders *)

Module RiskGaugeView.

Import JS RiskGauge.


End RiskGaugeView.

(** ** Views of the current panel: portfolio rollup, grouped detail, pick card *)

Module AgentDecisionsView.

Import JS AgentDecisions.
Local Open Scope Q_scope.

(** The statistics computed from [analyses] on every render. *)
Record Rollup := {
  bullishCount : Z;
  bearishCount : Z;
  neutralCount : Z;
  avgConf : Z;
  majority : Z;
  portfolioSignal : Signal
}.

(** [analyses.filter(a => a.overallSignal === s).length] *)
Definition countSignal (s : Signal) (analyses : list HoldingAnalysis.t) : Z :=
  Z.of_nat (List.length
    (List.filter (fun a => bool_decide (HoldingAnalysis.overallSignal a = s))
       analyses)).

Definition rollup (analyses : list HoldingAnalysis.t) : Rollup :=
  let len := Z.of_nat (List.length analyses) in
  let bullishCount := countSignal Bullish analyses in
  let bearishCount := countSignal Bearish analyses in
  let neutralCount := countSignal Neutral analyses in
  let avgConf :=
    if (len >? 0)%Z
    then Math_round
           (sum_by (fun a => inject_Z (HoldingAnalysis.overallConfidence a)) analyses
            / inject_Z len)
    else 0%Z in
  let majority := if (len >? 0)%Z then Math_ceil (inject_Z len / 2) else 2%Z in
  let portfolioSignal :=
    if (bullishCount >=? majority)%Z then Bullish
    else if (bearishCount >=? majority)%Z then Bearish
    else Neutral in
  {| bullishCount := bullishCount; bearishCount := bearishCount;
     neutralCount := neutralCount; avgConf := avgConf; majority := majority;
     portfolioSignal := portfolioSignal |}.

(** The entries of [AGENT_CONFIG], in source order, without the colours and
    icons. *)
Record AgentConfig := {
  label : string;
  shortLabel : string;
  group : string
}.

Definition AGENT_CONFIG : list (string * AgentConfig) :=
  [ ("WarrenBuffett", {| label := "巴菲特"; shortLabel := "Buffett"; group := "价值派" |});
    ("CharlieMunger", {| label := "芒格"; shortLabel := "Munger"; group := "价值派" |});
    ("BenGraham", {| label := "格雷厄姆"; shortLabel := "Graham"; group := "价值派" |});
    ("MichaelBurry", {| label := "伯里"; shortLabel := "Burry"; group := "价值派" |});
    ("MohnishPabrai", {| label := "帕布莱"; shortLabel := "Pabrai"; group := "价值派" |});
    ("PeterLynch", {| label := "彼得林奇"; shortLabel := "Lynch"; group := "成长派" |});
    ("CathieWood", {| label := "凯西伍德"; shortLabel := "CathieWood"; group := "成长派" |});
    ("PhilFisher", {| label := "费舍尔"; shortLabel := "Fisher"; group := "成长派" |});
    ("RakeshJhunjhunwala", {| label := "拉克希"; shortLabel := "Rakesh"; group := "成长派" |});
    ("AswathDamodaran", {| label := "达摩达兰"; shortLabel := "Damodaran"; group := "宏观/激进" |});
    ("StanleyDruckenmiller", {| label := "德鲁肯米勒"; shortLabel := "Druckenmiller"; group := "宏观/激进" |});
    ("BillAckman", {| label := "阿克曼"; shortLabel := "Ackman"; group := "宏观/激进" |});
    ("FundamentalAnalyst", {| label := "基本面"; shortLabel := "Fundamentals"; group := "量化支撑" |});
    ("TechnicalAnalyst", {| label := "技术面"; shortLabel := "Technicals"; group := "量化支撑" |});
    ("SentimentAnalyst", {| label := "市场情绪"; shortLabel := "Sentiment"; group := "量化支撑" |});
    ("RiskManager", {| label := "风控"; shortLabel := "RiskMgr"; group := "量化支撑" |}) ].

Definition GROUP_ORDER : list string :=
  [ "价值派"; "成长派"; "宏观/激进"; "量化支撑" ].

(** Names every plain object answers to through [Object.prototype]. *)
Definition Object_prototype_keys : list string :=
  [ "constructor"; "__defineGetter__"; "__defineSetter__"; "hasOwnProperty";
    "__lookupGetter__"; "__lookupSetter__"; "isPrototypeOf";
    "propertyIsEnumerable"; "toString"; "valueOf"; "__proto__";
    "toLocaleString" ].

(** Truthiness of [o[name]] for a plain object whose own values are objects:
    an own property, or a member inherited from [Object.prototype]. *)
Definition truthy_at (own : list string) (name : string) : bool :=
  bool_decide (name ∈ own) || bool_decide (name ∈ Object_prototype_keys).

(** [Object.keys(o)] *)
Definition Object_keys {V : Type} (o : gmap string V) : list string :=
  (map_to_list o).*1.

(** [Object.entries(AGENT_CONFIG).filter(([name, cfg]) =>
      cfg.group === group && a.agentSignals[name])] *)
Definition groupAgents (agentSignals : gmap string LLMSignal) (g : string)
    : list (string * AgentConfig) :=
  List.filter
    (fun '(name, cfg) =>
       String.eqb (group cfg) g && truthy_at (Object_keys agentSignals) name)
    AGENT_CONFIG.

(** The agents listed in the group sections of an expanded card, in order;
    a group without agents renders nothing. *)
Definition shownInGroups (agentSignals : gmap string LLMSignal) : list string :=
  List.flat_map (fun g => List.map fst (groupAgents agentSignals g)) GROUP_ORDER.

(** [Object.entries(a.agentSignals).filter(([name]) => !AGENT_CONFIG[name])] *)
Definition shownInFallback (agentSignals : gmap string LLMSignal) : list string :=
  List.filter (fun name => negb (truthy_at (List.map fst AGENT_CONFIG) name))
    (Object_keys agentSignals).

Definition shown (agentSignals : gmap string LLMSignal) : list string :=
  shownInGroups agentSignals ++ shownInFallback agentSignals.

(** The fields of a pick that [renderPickCard] computes with. *)
Module PickResult.
Record t := {
  code : string;
  name : string;
  net_inflow : Q;
  bullish : Z;
  bearish : Z;
  neutral : Z;
  avg_confidence : Q;
  score : Q
}.
End PickResult.

(** [pick.bullish + pick.bearish + pick.neutral] *)
Definition totalVotes (pick : PickResult.t) : Z :=
  (PickResult.bullish pick + PickResult.bearish pick + PickResult.neutral pick)%Z.

(** [Math.round(pick.score)] *)
Definition scorePercent (pick : PickResult.t) : Z :=
  Math_round (PickResult.score pick).

(** The width of the score bar: [Math.min(scorePercent * 1.5, 100)] percent. *)
Definition barWidth (pick : PickResult.t) : Q :=
  Math_min (inject_Z (scorePercent pick) * 1.5) 100.

End AgentDecisionsView.

(** ** Rollup of the first version of the panel *)

Module LegacyView.

Import JS Legacy.
Local Open Scope Q_scope.

Record Rollup := {
  buyCount : nat;
  sellCount : nat;
  holdCount : nat;
  avgConf : Z;
  overallSignal : Action
}.

Definition countAction (a : Action) (analyses : list StockAnalysis.t) : nat :=
  List.length
    (List.filter (fun x => bool_decide (StockAnalysis.overallSignal x = a)) analyses).

Definition rollup (analyses : list StockAnalysis.t) : Rollup :=
  let buyCount := countAction buy analyses in
  let sellCount := countAction sell analyses in
  let holdCount := countAction hold analyses in
  let avgConf :=
    if (0 <? List.length analyses)%nat
    then Math_round
           (sum_by (fun a => inject_Z (StockAnalysis.overallConfidence a)) analyses
            / inject_Z (Z.of_nat (List.length analyses)))
    else 0%Z in
  let overallSignal :=
    if (3 <=? sellCount)%nat then sell
    else if (3 <=? buyCount)%nat then buy
    else hold in
  {| buyCount := buyCount; sellCount := sellCount; holdCount := holdCount;
     avgConf := avgConf; overallSignal := overallSignal |}.

End LegacyView.

(** ** The quote routes: exchange of a stock code *)

Module QuoteRoute.

(** First version: [c.startsWith('6') || c === '000001' ? 'SH' : 'SZ'],
    prepended to the code. *)
Definition market (c : string) : string :=
  if String.prefix "6" c || String.eqb c "000001" then "SH" else "SZ".

Definition toSymbol (c : string) : string := market c ++ c.

(** [symbol.replace(/^(SH|SZ)/, '')] *)
Definition codeOfSymbol (symbol : string) : string :=
  if String.prefix "SH" symbol || String.prefix "SZ" symbol
  then String.substring 2 (String.length symbol - 2) symbol
  else symbol.

(** Second version. *)
Definition toSecid (code : string) : string :=
  if String.prefix "6" code || String.prefix "5" code || String.prefix "688" code
  then "1." ++ code
  else if String.prefix "399" code then "0." ++ code
  else if String.eqb code "000001" then "1." ++ code
  else "0." ++ code.

End QuoteRoute.

(** ** Trade signals of the dashboard *)

Module Dashboard.

Import JS Legacy.
Local Open Scope Q_scope.

Definition HOLDINGS : list Holding.t :=
  [ {| Holding.code := "300394"; Holding.name := "天孚通信"; Holding.cost := 280.50 |};
    {| Holding.code := "002916"; Holding.name := "深南电路"; Holding.cost := 220.00 |};
    {| Holding.code := "600183"; Holding.name := "生益科技"; Holding.cost := 58.30 |};
    {| Holding.code := "300308"; Holding.name := "中际旭创"; Holding.cost := 510.00 |};
    {| Holding.code := "002463"; Holding.name := "沪电股份"; Holding.cost := 65.40 |};
    {| Holding.code := "300502"; Holding.name := "新易盛"; Holding.cost := 350.00 |} ].

(** The [time] stamp and the [reason] text are left out. *)
Record TradeSignal := {
  stock : string;
  code : string;
  action : Action;
  confidence : Z
}.

(** The rule cascade that turns a quote of a holding into a signal. *)
Definition signalFor (q : StockQuote.t) (holding : Holding.t) : TradeSignal :=
  let pnlPct :=
    ((StockQuote.current q - Holding.cost holding) / Holding.cost holding) * 100 in
  let dayRange :=
    if gtb (StockQuote.high q) 0
    then ((StockQuote.current q - StockQuote.low q)
            / (StockQuote.high q - StockQuote.low q)) * 100
    else 50 in
  let percent := StockQuote.percent q in
  let '(action, confidence) :=
    if gtb percent 8 && gtb pnlPct 20 then (sell, 82%Z)
    else if gtb percent 5 && gtb pnlPct 15 then (sell, 72%Z)
    else if ltb percent (-5) && ltb pnlPct (-5) then (sell, 70%Z)
    else if gtb percent 2 && gtb pnlPct 0 && ltb pnlPct 15 then (buy, 68%Z)
    else if gtb percent 0 && gtb dayRange 70 then (buy, 65%Z)
    else if ltb percent (-2) && gtb pnlPct 10 then (hold, 65%Z)
    else if gtb percent (-1) && ltb percent 1 then (hold, 60%Z)
    else (hold, 58%Z) in
  {| stock := Holding.name holding; code := Holding.code holding;
     action := action; confidence := confidence |}.

(** The loop over [HOLDINGS]: a holding without a quote is passed over. *)
Definition newSignals (holdings : list Holding.t) (quotes : list StockQuote.t)
    : list TradeSignal :=
  omap
    (fun holding =>
       match List.find
               (fun d => String.eqb (StockQuote.code d) (Holding.code holding))
               quotes with
       | None => None
       | Some q => Some (signalFor q holding)
       end)
    holdings.

(** The final decision: '偏空减仓', '偏多加仓' or '维持现状'. *)
Inductive Decision := ReducePositions | AddPositions | KeepPositions.

Record Summary := {
  sellCount : Z;
  buyCount : Z;
  holdCount : Z;
  avgConf : Z;
  overall : Decision
}.

Definition countAction (a : Action) (signals : list TradeSignal) : Z :=
  Z.of_nat (List.length
    (List.filter (fun s => bool_decide (action s = a)) signals)).

(** Steps 6 and 7 of [runAnalysis]. *)
Definition summarize (signals : list TradeSignal) : Summary :=
  let len := Z.of_nat (List.length signals) in
  let sellCount := countAction sell signals in
  let buyCount := countAction buy signals in
  let avgConf :=
    if (len >? 0)%Z
    then Math_round (sum_by (fun n => inject_Z (confidence n)) signals / inject_Z len)
    else 0%Z in
  let overall :=
    if (sellCount >? buyCount)%Z then ReducePositions
    else if (buyCount >? sellCount)%Z then AddPositions
    else KeepPositions in
  {| sellCount := sellCount; buyCount := buyCount;
     holdCount := (len - sellCount - buyCount)%Z;
     avgConf := avgConf; overall := overall |}.

End Dashboard.

(** ** Further inputs used to exercise the code *)

Module ExtraScenarios.

Import JS.
Local Open Scope Q_scope.

(** The scenario account after a fall: same positions, 90 percent invested,
    10 percent under water. *)
Definition stressed : RiskGauge.PortfolioSummary :=
  {| RiskGauge.cash := 200; RiskGauge.totalAssets := 2000;
     RiskGauge.totalMarketValue := 1800; RiskGauge.totalPnl := -100;
     RiskGauge.todayPnl := 0;
     RiskGauge.positions := RiskGauge.positions RiskGaugeSpec.scenario |}.

(** One bullish and one bearish verdict. *)
Definition verdicts_tie : gmap string AgentDecisions.LLMSignal :=
  list_to_map
    [ ("WarrenBuffett", AggregatorSpec.verdict AgentDecisions.Bullish 60);
      ("MichaelBurry", AggregatorSpec.verdict AgentDecisions.Bearish 90) ].

(** A holding's aggregated verdict, seen as one vote of the portfolio. *)
Definition verdictOf (a : AgentDecisions.HoldingAnalysis.t)
    : AgentDecisions.LLMSignal :=
  {| AgentDecisions.signal := AgentDecisions.HoldingAnalysis.overallSignal a;
     AgentDecisions.confidence :=
       inject_Z (AgentDecisions.HoldingAnalysis.overallConfidence a);
     AgentDecisions.reasoning := "" |}.

Definition holdingVerdicts (analyses : list AgentDecisions.HoldingAnalysis.t)
    : gmap string AgentDecisions.LLMSignal :=
  list_to_map
    (List.map (fun a => (AgentDecisions.HoldingAnalysis.code a, verdictOf a))
       analyses).

(** Three analysed holdings: two bullish, one bearish. *)
Definition analysed (code : string) (s : AgentDecisions.Signal) (c : Z)
    : AgentDecisions.HoldingAnalysis.t :=
  {| AgentDecisions.HoldingAnalysis.code := code;
     AgentDecisions.HoldingAnalysis.name := code;
     AgentDecisions.HoldingAnalysis.price := 10;
     AgentDecisions.HoldingAnalysis.change := 1;
     AgentDecisions.HoldingAnalysis.pnlPct := 2;
     AgentDecisions.HoldingAnalysis.overallSignal := s;
     AgentDecisions.HoldingAnalysis.overallConfidence := c;
     AgentDecisions.HoldingAnalysis.agentSignals := ∅ |}.

Definition three_analyses : list AgentDecisions.HoldingAnalysis.t :=
  [ analysed "600183" AgentDecisions.Bullish 70;
    analysed "300308" AgentDecisions.Bearish 55;
    analysed "002463" AgentDecisions.Bullish 64 ].

(** A verdict stored under a name that every object inherits. *)
Definition inherited_name : gmap string AgentDecisions.LLMSignal :=
  {[ "constructor" := AggregatorSpec.verdict AgentDecisions.Bullish 70 ]}.

(** Verdicts of two configured agents and one unknown agent. *)
Definition mixed_panel : gmap string AgentDecisions.LLMSignal :=
  list_to_map
    [ ("RiskManager", AggregatorSpec.verdict AgentDecisions.Neutral 50);
      ("QuantBot", AggregatorSpec.verdict AgentDecisions.Bullish 66);
      ("WarrenBuffett", AggregatorSpec.verdict AgentDecisions.Bullish 80) ].

Definition pick_with_score (score : Q) : AgentDecisionsView.PickResult.t :=
  {| AgentDecisionsView.PickResult.code := "688981";
     AgentDecisionsView.PickResult.name := "688981";
     AgentDecisionsView.PickResult.net_inflow := 250000000;
     AgentDecisionsView.PickResult.bullish := 10;
     AgentDecisionsView.PickResult.bearish := 2;
     AgentDecisionsView.PickResult.neutral := 4;
     AgentDecisionsView.PickResult.avg_confidence := 71;
     AgentDecisionsView.PickResult.score := score |}.

(** A sector with one held stock, three eligible stocks (two of them with
    the same net inflow) and one stock that rose too much. *)
Definition rising_sector : list Legacy.SectorStock.t :=
  [ ScreenerSpec.stock "300308" 4 900000000;
    ScreenerSpec.stock "688981" 3 250000000;
    ScreenerSpec.stock "603986" 5 400000000;
    ScreenerSpec.stock "688012" 9.5 800000000;
    ScreenerSpec.stock "600584" 2 400000000 ].

(** Quotes and market answer, the sector request is rejected. *)
Definition sector_down : Legacy.Gateway :=
  {| Legacy.fetch_quote :=
       Some {| Legacy.quote_success := true;
               Legacy.quote_data := Some [AnalyzerScenarios.quote_600183] |};
     Legacy.fetch_market := Some ScreenerSpec.market;
     Legacy.fetch_sector_stocks := fun _ => None |}.

(** The quote request is rejected. *)
Definition quotes_down : Legacy.Gateway :=
  {| Legacy.fetch_quote := None;
     Legacy.fetch_market := Some ScreenerSpec.market;
     Legacy.fetch_sector_stocks :=
       Legacy.fetch_sector_stocks (ScreenerSpec.gateway [] rising_sector) |}.

(** A strong day for 600183: up 8 percent, closing near the high. *)
Definition surging_600183 : Legacy.StockQuote.t :=
  {| Legacy.StockQuote.code := "600183"; Legacy.StockQuote.current := 70;
     Legacy.StockQuote.percent := 8; Legacy.StockQuote.chg := 5.2;
     Legacy.StockQuote.high := 70.5; Legacy.StockQuote.low := 65;
     Legacy.StockQuote.open := 65.5; Legacy.StockQuote.last_close := 64.8 |}.

Definition held_600183 : Legacy.Holding.t :=
  {| Legacy.Holding.code := "600183"; Legacy.Holding.name := "生益科技";
     Legacy.Holding.cost := 58.30 |}.

(** A gateway whose quote request is rejected. *)
Definition offline : AgentDecisions.Gateway :=
  {| AgentDecisions.fetch_quote := AgentDecisions.Rejected "Failed to fetch";
     AgentDecisions.fetch_agents :=
       AgentDecisions.fetch_agents AnalyzerScenarios.no_quotes;
     AgentDecisions.fetch_market := AgentDecisions.Resolved tt |}.

End ExtraScenarios.

(** * Properties *)

(** ** Facts about the number primitives *)

Module JSFacts.

Import JS.
Local Open Scope Q_scope.

Lemma ltb_lt x y : ltb x y = true <-> x < y.
Proof.
  unfold ltb. rewrite negb_true_iff, <- not_true_iff_false, Qle_bool_iff.
  split; [apply Qnot_le_lt | apply Qlt_not_le].
Qed.

Lemma ltb_ge x y : ltb x y = false <-> y <= x.
Proof. unfold ltb. rewrite negb_false_iff. apply Qle_bool_iff. Qed.

Lemma gtb_gt x y : gtb x y = true <-> y < x.
Proof. apply ltb_lt. Qed.

Lemma gtb_le x y : gtb x y = false <-> x <= y.
Proof. apply ltb_ge. Qed.

Lemma leb_le x y : leb x y = true <-> x <= y.
Proof. apply Qle_bool_iff. Qed.

Lemma leb_gt x y : leb x y = false <-> y < x.
Proof.
  unfold leb. rewrite <- not_true_iff_false, Qle_bool_iff.
  split; [apply Qnot_le_lt | apply Qlt_not_le].
Qed.

#[global] Instance ltb_proper : Proper (Qeq ==> Qeq ==> eq) ltb.
Proof. intros x x' Hx y y' Hy. unfold ltb. now rewrite Hx, Hy. Qed.

#[global] Instance gtb_proper : Proper (Qeq ==> Qeq ==> eq) gtb.
Proof. intros x x' Hx y y' Hy. unfold gtb. now rewrite Hx, Hy. Qed.

(** Case analysis on a comparison, leaving the order fact in the context. *)
Ltac case_cmp :=
  match goal with
  | |- context [gtb ?x ?y] =>
    let H := fresh "Hc" in
    destruct (gtb x y) eqn:H; [apply gtb_gt in H | apply gtb_le in H]
  | |- context [ltb ?x ?y] =>
    let H := fresh "Hc" in
    destruct (ltb x y) eqn:H; [apply ltb_lt in H | apply ltb_ge in H]
  end.

(** [Math.round x] is the integer [c] with [c <= x + 1/2 < c + 1]. *)
Lemma Math_round_spec x :
  inject_Z (Math_round x) <= x + (1 # 2) /\
  x + (1 # 2) < inject_Z (Math_round x) + 1.
Proof.
  unfold Math_round. split; [apply Qfloor_le |].
  pose proof (Qlt_floor (x + (1 # 2))) as H.
  rewrite inject_Z_plus in H. exact H.
Qed.

(** [Math.ceil (n / 2)] for an integer [n], in integer arithmetic. *)
Lemma Math_ceil_half (n : Z) : Math_ceil (inject_Z n / 2) = ((n + 1) / 2)%Z.
Proof.
  unfold Math_ceil, Qceiling, Qfloor, Qdiv, Qmult, Qopp, Qinv, inject_Z; simpl.
  rewrite !Z.mul_1_r. change (Z.pos (1 * 2)) with 2%Z.
  pose proof (Z.div_mod (- n) 2 ltac:(lia)).
  pose proof (Z.mod_pos_bound (- n) 2 ltac:(lia)).
  pose proof (Z.div_mod (n + 1) 2 ltac:(lia)).
  pose proof (Z.mod_pos_bound (n + 1) 2 ltac:(lia)).
  lia.
Qed.

End JSFacts.


(** ** Risk scorer *)

Module RiskGaugeProps.

Import JS JSFacts RiskGauge RiskGaugeSpec.
Local Open Scope Q_scope.

Lemma targetScore_scored p :
  0 < totalAssets p ->
  targetScore (Some p)
  = Z.min (rawScore (positionRatio p) (concentration p) (currentPnlPct p)) 100.
Proof.
  intros Hpos. unfold targetScore, calcMetrics.
  destruct (leb (totalAssets p) 0) eqn:E; [| reflexivity].
  apply leb_le in E. lra.
Qed.

Lemma calcMetrics_scored p :
  0 < totalAssets p ->
  exists ms,
    calcMetrics (Some p)
    = ScoredMetrics
        {| score := Z.min (rawScore (positionRatio p) (concentration p)
                             (currentPnlPct p)) 100;
           metrics := ms |}.
Proof.
  intros Hpos. unfold calcMetrics.
  destruct (leb (totalAssets p) 0) eqn:E; [apply leb_le in E; lra |].
  eexists. reflexivity.
Qed.

(** The running [score] variable is the base plus the three increments. *)
Lemma rawScore_increments r c pnl :
  rawScore r c pnl
  = (20 + exposure_increment r + concentration_increment c + loss_increment pnl)%Z.
Proof.
  unfold rawScore, exposure_increment, concentration_increment, loss_increment.
  repeat case_cmp; repeat destruct (Qlt_le_dec _ _); try lia; lra.
Qed.

Lemma rawScore_bounds r c pnl : (20 <= rawScore r c pnl <= 85)%Z.
Proof. unfold rawScore. repeat case_cmp; lia. Qed.

Lemma rawScore_mono_concentration r pnl c1 c2 :
  c1 <= c2 -> (rawScore r c1 pnl <= rawScore r c2 pnl)%Z.
Proof.
  intros Hle. unfold rawScore. repeat case_cmp; try lia; lra.
Qed.

#[global] Instance rawScore_proper : Proper (Qeq ==> Qeq ==> Qeq ==> eq) rawScore.
Proof.
  intros r r' Hr c c' Hc x x' Hx. unfold rawScore.
  rewrite (gtb_proper r r' Hr 85 85 (Qeq_refl _)),
          (gtb_proper r r' Hr 70 70 (Qeq_refl _)),
          (gtb_proper c c' Hc 50 50 (Qeq_refl _)),
          (gtb_proper c c' Hc 30 30 (Qeq_refl _)),
          (ltb_proper x x' Hx (-5) (-5) (Qeq_refl _)),
          (ltb_proper x x' Hx (-3) (-3) (Qeq_refl _)).
  reflexivity.
Qed.

Lemma riskLevel_bands s : riskLevel s = risk_level_spec s.
Proof.
  unfold riskLevel, risk_level_spec.
  destruct (Z.ltb_spec s 30), (Z_lt_dec s 30); try lia;
    destruct (Z.ltb_spec s 60), (Z_lt_dec s 60); try lia; reflexivity.
Qed.

(** [maxPositionValue] is the largest [shares * cost] among the positions. *)
Lemma Math_max_of_upper x xs :
  x <= Math_max_of x xs /\ Forall (fun y => y <= Math_max_of x xs) xs.
Proof.
  unfold Math_max_of. revert x. induction xs as [| y ys IH]; intros x; simpl.
  - split; [lra | constructor].
  - destruct (IH (Math_max x y)) as [H1 H2].
    assert (x <= Math_max x y /\ y <= Math_max x y) as [Hx Hy].
    { unfold Math_max. destruct (Qle_bool x y) eqn:E.
      - apply Qle_bool_iff in E. split; lra.
      - apply leb_gt in E. split; lra. }
    split; [lra |]. constructor; [lra | exact H2].
Qed.

Lemma maxPositionValue_upper p x :
  In x (positions p) -> shares x * cost x <= maxPositionValue p.
Proof.
  unfold maxPositionValue. intros Hin.
  apply (in_map (fun x => shares x * cost x)) in Hin.
  destruct (List.map _ (positions p)) as [| v vs]; [destruct Hin |].
  destruct (Math_max_of_upper v vs) as [Hv Hvs].
  destruct Hin as [<- | Hin]; [exact Hv |].
  rewrite Forall_forall in Hvs. apply Hvs. now apply list_elem_of_In.
Qed.

Lemma Math_max_of_attained x xs : In (Math_max_of x xs) (x :: xs).
Proof.
  unfold Math_max_of. revert x. induction xs as [| y ys IH]; intros x; simpl.
  - now left.
  - destruct (IH (Math_max x y)) as [Hhd | Htl].
    + rewrite <- Hhd. unfold Math_max. destruct (Qle_bool x y); auto.
    + auto.
Qed.

Lemma maxPositionValue_attained p :
  positions p <> [] ->
  exists x, In x (positions p) /\ maxPositionValue p = shares x * cost x.
Proof.
  unfold maxPositionValue. intros Hne.
  destruct (List.map _ (positions p)) as [| v vs] eqn:Hmap.
  - destruct (positions p); [congruence | discriminate Hmap].
  - pose proof (Math_max_of_attained v vs) as Hin.
    rewrite <- Hmap in Hin. apply in_map_iff in Hin as (x & Hx & Hin).
    exists x. split; [exact Hin | now rewrite Hx].
Qed.

(** All three top tiers at once: exposure 90, concentration 80, P&L -10. *)
Example concentrated_loss_score :
  positionRatio concentrated_loss == 90
  /\ concentration concentrated_loss == 80
  /\ currentPnlPct concentrated_loss == -10
  /\ targetScore (Some concentrated_loss) = 85%Z
  /\ riskLevel (targetScore (Some concentrated_loss)) = HighRisk.
Proof. repeat split; vm_compute; reflexivity. Qed.

(** Without a portfolio, or without assets, the gauge shows the default 35. *)
Example no_portfolio_score :
  targetScore None = 35%Z
  /\ targetScore (Some (summaryOf 0 [])) = 35%Z
  /\ riskLevel 35 = MediumRisk.
Proof. repeat split. Qed.

(** C6: for a portfolio with positive total assets the risk score is the base
    20 plus the tiered exposure, concentration and loss increments, clamped to
    [0,100], and the level is low below 30, medium below 60, high otherwise. *)
Theorem risk_score_rule (p : PortfolioSummary) :
  0 < totalAssets p ->
  targetScore (Some p)
  = risk_score_spec (positionRatio p) (concentration p) (currentPnlPct p)
  /\ (exists ms,
        calcMetrics (Some p)
        = ScoredMetrics
            {| score := risk_score_spec (positionRatio p) (concentration p)
                          (currentPnlPct p);
               metrics := ms |})
  /\ riskLevel (targetScore (Some p)) = risk_level_spec (targetScore (Some p)).
Proof.
  intros Hpos.
  assert (Z.min (rawScore (positionRatio p) (concentration p) (currentPnlPct p)) 100
          = risk_score_spec (positionRatio p) (concentration p) (currentPnlPct p))
    as Hspec.
  { unfold risk_score_spec, clamp. rewrite <- rawScore_increments.
    pose proof (rawScore_bounds (positionRatio p) (concentration p)
                  (currentPnlPct p)). lia. }
  split; [| split].
  - rewrite targetScore_scored by exact Hpos. exact Hspec.
  - destruct (calcMetrics_scored p Hpos) as [ms Hms].
    exists ms. rewrite Hms, Hspec. reflexivity.
  - apply riskLevel_bands.
Qed.

Lemma risk_score_rule_witness :
  0 < totalAssets scenario
  /\ (targetScore (Some scenario)
      = risk_score_spec (positionRatio scenario) (concentration scenario)
          (currentPnlPct scenario)
      /\ (exists ms,
            calcMetrics (Some scenario)
            = ScoredMetrics
                {| score := risk_score_spec (positionRatio scenario)
                              (concentration scenario) (currentPnlPct scenario);
                   metrics := ms |})
      /\ riskLevel (targetScore (Some scenario))
         = risk_level_spec (targetScore (Some scenario))).
Proof.
  split; [reflexivity | apply (risk_score_rule scenario); reflexivity].
Defined.

(** C8 as stated fails: in the scenario holdings = [{cost:100, shares:10,
    currentPrice:130}], totalAssets = 2000 the concentration is not 65, the
    score is not 20 and the level is not low. *)
Lemma scenario_not_base_score :
  ~ concentration scenario == 65
  /\ targetScore (Some scenario) <> 20%Z
  /\ riskLevel (targetScore (Some scenario)) <> LowRisk.
Proof.
  split; [| split]; vm_compute; intros H; discriminate H.
Qed.

(** C8, amended: in that scenario the exposure ratio is 65, the concentration
    (largest cost x shares over total assets) is 50 and the P&L percent is 30;
    no exposure or loss increment applies, the concentration increment for
    "above 30" adds 10, the score is 30 and the level is medium.  (The
    concentration 1000 / 2000 * 100 is 50 exactly in binary floating point
    too, so the comparison with 50 is the same there.) *)
Theorem scenario_risk :
  positionRatio scenario == 65
  /\ concentration scenario == 50
  /\ currentPnlPct scenario == 30
  /\ exposure_increment (positionRatio scenario) = 0%Z
  /\ concentration_increment (concentration scenario) = 10%Z
  /\ loss_increment (currentPnlPct scenario) = 0%Z
  /\ targetScore (Some scenario) = 30%Z
  /\ riskLevel (targetScore (Some scenario)) = MediumRisk.
Proof.
  repeat split; vm_compute; reflexivity.
Qed.

(** C9: with the exposure ratio and the P&L percent fixed, a larger
    concentration never gives a smaller risk score. *)
Theorem risk_score_monotone_in_concentration (p1 p2 : PortfolioSummary) :
  0 < totalAssets p1 ->
  0 < totalAssets p2 ->
  positionRatio p1 == positionRatio p2 ->
  currentPnlPct p1 == currentPnlPct p2 ->
  concentration p1 <= concentration p2 ->
  (targetScore (Some p1) <= targetScore (Some p2))%Z.
Proof.
  intros H1 H2 Hr Hp Hc.
  rewrite !targetScore_scored by assumption.
  rewrite Hr, Hp.
  pose proof (rawScore_mono_concentration (positionRatio p2) (currentPnlPct p2)
                _ _ Hc).
  lia.
Qed.

Lemma risk_score_monotone_in_concentration_witness :
  concentration spread <= concentration scenario
  /\ (targetScore (Some spread) <= targetScore (Some scenario))%Z.
Proof.
  assert (concentration spread <= concentration scenario) as Hc.
  { vm_compute. intros H; discriminate H. }
  split; [exact Hc |].
  apply (risk_score_monotone_in_concentration spread scenario);
    [reflexivity | reflexivity | vm_compute; reflexivity
    | vm_compute; reflexivity | exact Hc].
Defined.

(** C10: for a portfolio with positive total assets the risk score lies in
    [20, 85], so the cap at 100 never binds. *)
Theorem risk_score_range (p : PortfolioSummary) :
  0 < totalAssets p ->
  (20 <= targetScore (Some p) <= 85)%Z
  /\ targetScore (Some p)
     = rawScore (positionRatio p) (concentration p) (currentPnlPct p).
Proof.
  intros Hpos. rewrite targetScore_scored by exact Hpos.
  pose proof (rawScore_bounds (positionRatio p) (concentration p)
                (currentPnlPct p)).
  lia.
Qed.

Lemma risk_score_range_witness :
  0 < totalAssets spread
  /\ ((20 <= targetScore (Some spread) <= 85)%Z
      /\ targetScore (Some spread)
         = rawScore (positionRatio spread) (concentration spread)
             (currentPnlPct spread)).
Proof.
  split; [reflexivity | apply (risk_score_range spread); reflexivity].
Defined.

End RiskGaugeProps.

(** ** Signal aggregator *)

Module AggregatorProps.

Import JS JSFacts AgentDecisions AggregatorSpec.
Local Open Scope Q_scope.

Lemma length_Object_values {V} (o : gmap string V) :
  List.length (Object_values o) = size o.
Proof. unfold Object_values. now rewrite length_fmap, length_map_to_list. Qed.

Lemma Object_values_empty {V} : Object_values (∅ : gmap string V) = [].
Proof. unfold Object_values. now rewrite map_to_list_empty. Qed.

Lemma Object_values_insert {V} (o : gmap string V) k v :
  o !! k = None -> Object_values (<[k := v]> o) ≡ₚ v :: Object_values o.
Proof.
  intros Hk. unfold Object_values.
  now rewrite (map_to_list_insert o k v Hk).
Qed.

Lemma filter_length_perm {A} (f : A -> bool) (l l' : list A) :
  l ≡ₚ l' -> List.length (List.filter f l) = List.length (List.filter f l').
Proof.
  induction 1 as [| x l l' _ IH | x y l | l l' l'' _ IH1 _ IH2]; simpl.
  - reflexivity.
  - destruct (f x); simpl; congruence.
  - destruct (f x), (f y); reflexivity.
  - congruence.
Qed.

(** The [filter(..).length] counts of [calcOverall] are the numbers of
    verdicts with each signal. *)
Lemma votes_count (s : Signal) (verdicts : gmap string LLMSignal) :
  Z.of_nat (List.length
    (List.filter (fun v => bool_decide (signal v = s)) (Object_values verdicts)))
  = votes s verdicts.
Proof.
  unfold votes. f_equal.
  induction verdicts as [| k v m Hk IH] using map_ind.
  - now rewrite Object_values_empty, map_filter_empty, map_size_empty.
  - rewrite (filter_length_perm _ _ _ (Object_values_insert m k v Hk)). simpl.
    destruct (decide (signal v = s)) as [Hs | Hs].
    + rewrite bool_decide_eq_true_2 by exact Hs. simpl.
      rewrite map_filter_insert_True by exact Hs.
      rewrite map_size_insert_None; [now rewrite IH |].
      apply map_lookup_filter_None_2. now left.
    + rewrite bool_decide_eq_false_2 by exact Hs.
      rewrite map_filter_insert_not'; [exact IH | exact Hs |].
      intros y Hy. rewrite Hk in Hy. discriminate Hy.
Qed.

(** Every verdict carries exactly one of the three signals. *)
Lemma votes_partition (verdicts : gmap string LLMSignal) :
  (votes Bullish verdicts + votes Bearish verdicts + votes Neutral verdicts
   = Z.of_nat (size verdicts))%Z.
Proof.
  rewrite <- !votes_count, <- length_Object_values.
  induction (Object_values verdicts) as [| v vs IH]; [reflexivity |].
  simpl. destruct (signal v); simpl in *; lia.
Qed.

Lemma votes_nonneg s verdicts : (0 <= votes s verdicts)%Z.
Proof. unfold votes. lia. Qed.

Lemma sum_by_acc {A} (f : A -> Q) (l : list A) (a : Q) :
  fold_left (fun s x => s + f x) l a == a + foldr (fun v s => f v + s) 0 l.
Proof.
  revert a. induction l as [| x l IH]; intros a; simpl; [lra |].
  rewrite IH. lra.
Qed.

Lemma sum_by_foldr {A} (f : A -> Q) (l : list A) :
  sum_by f l == foldr (fun v s => f v + s) 0 l.
Proof. unfold sum_by. rewrite sum_by_acc. lra. Qed.

Lemma Math_round_proper x y : x == y -> Math_round x = Math_round y.
Proof. intros H. unfold Math_round. now rewrite H. Qed.

Lemma Math_round_nearest x : is_nearest_integer x (Math_round x).
Proof.
  destruct (Math_round_spec x) as [H1 H2]. unfold is_nearest_integer.
  split; lra.
Qed.

Lemma calcOverall_empty (agentSignals : gmap string LLMSignal) :
  size agentSignals = 0%nat ->
  calcOverall agentSignals
  = {| Overall.signal := Neutral; Overall.confidence := 0;
       Overall.bullish := 0; Overall.bearish := 0; Overall.neutral := 0 |}.
Proof.
  intros Hn. unfold calcOverall. now rewrite length_Object_values, Hn.
Qed.

Lemma calcOverall_nonempty (agentSignals : gmap string LLMSignal) :
  size agentSignals <> 0%nat ->
  let n := Z.of_nat (size agentSignals) in
  let b := votes Bullish agentSignals in
  let r := votes Bearish agentSignals in
  calcOverall agentSignals
  = {| Overall.signal :=
         if (b >=? (n + 1) / 2)%Z then Bullish
         else if (r >=? (n + 1) / 2)%Z then Bearish
         else Neutral;
       Overall.confidence :=
         Math_round (sum_by confidence (Object_values agentSignals) / inject_Z n);
       Overall.bullish := b;
       Overall.bearish := r;
       Overall.neutral := (n - b - r)%Z |}.
Proof.
  intros Hn n b r. unfold calcOverall.
  rewrite length_Object_values. fold n.
  destruct (Z.eqb_spec n 0) as [H0 | _]; [unfold n in H0; lia |].
  rewrite !votes_count, Math_ceil_half. reflexivity.
Qed.

Lemma ceil_half_spec (n : Z) : is_ceil_half n ((n + 1) / 2).
Proof.
  unfold is_ceil_half.
  pose proof (Z.div_mod (n + 1) 2 ltac:(lia)).
  pose proof (Z.mod_pos_bound (n + 1) 2 ltac:(lia)).
  lia.
Qed.

Lemma ceil_half_unique (n m m' : Z) :
  is_ceil_half n m -> is_ceil_half n m' -> m = m'.
Proof. unfold is_ceil_half. lia. Qed.

Lemma calcOverall_signal (agentSignals : gmap string LLMSignal) (majority : Z) :
  size agentSignals <> 0%nat ->
  is_ceil_half (Z.of_nat (size agentSignals)) majority ->
  Overall.signal (calcOverall agentSignals)
  = majority_signal majority (votes Bullish agentSignals)
      (votes Bearish agentSignals).
Proof.
  intros Hn Hm. rewrite (calcOverall_nonempty _ Hn). simpl.
  rewrite (ceil_half_unique _ _ _ Hm (ceil_half_spec _)).
  unfold majority_signal.
  rewrite !Z.geb_leb.
  repeat match goal with
         | |- context [(?x <=? ?y)%Z] => destruct (Z.leb_spec x y)
         end;
    repeat case_decide; try reflexivity; lia.
Qed.

(** C1: for a non-empty set of verdicts the overall signal is bullish when the
    bullish votes reach ceil(n/2), else bearish when the bearish votes do,
    else neutral; the overall confidence is the mean confidence rounded to the
    nearest integer; the empty set gives neutral with confidence 0; a 3/1/1
    split of five verdicts is bullish and a 2/2/1 split is neutral. *)
Theorem calcOverall_majority_rule (agentSignals : gmap string LLMSignal) :
  let o := calcOverall agentSignals in
  let n := Z.of_nat (size agentSignals) in
  let b := votes Bullish agentSignals in
  let r := votes Bearish agentSignals in
  (agentSignals = ∅ -> Overall.signal o = Neutral /\ Overall.confidence o = 0%Z)
  /\ (agentSignals <> ∅ ->
      (forall majority, is_ceil_half n majority ->
         Overall.signal o = majority_signal majority b r)
      /\ (Overall.signal o = Neutral <->
          forall majority, is_ceil_half n majority ->
            (b < majority)%Z /\ (r < majority)%Z)
      /\ is_nearest_integer (mean_confidence agentSignals) (Overall.confidence o))
  /\ (n = 5%Z -> b = 3%Z -> r = 1%Z -> votes Neutral agentSignals = 1%Z ->
      Overall.signal o = Bullish)
  /\ (n = 5%Z -> b = 2%Z -> r = 2%Z -> votes Neutral agentSignals = 1%Z ->
      Overall.signal o = Neutral).
Proof.
  intros o n b r. split; [| split; [| split]].
  - intros ->. subst o. rewrite calcOverall_empty by apply map_size_empty.
    split; reflexivity.
  - intros Hne. apply map_size_non_empty_iff in Hne.
    split; [| split].
    + intros majority Hm. now apply calcOverall_signal.
    + subst o. rewrite (calcOverall_signal _ _ Hne (ceil_half_spec _)).
      fold n b r. unfold majority_signal. split.
      * intros Hs majority Hm.
        rewrite (ceil_half_unique _ _ _ Hm (ceil_half_spec n)).
        repeat case_decide; try discriminate Hs. lia.
      * intros H. destruct (H _ (ceil_half_spec n)) as [Hb Hr].
        repeat case_decide; try reflexivity; lia.
    + subst o. rewrite (calcOverall_nonempty _ Hne). simpl.
      erewrite Math_round_proper; [apply Math_round_nearest |].
      unfold mean_confidence, total_confidence.
      now rewrite sum_by_foldr.
  - intros Hn Hb Hr _. subst o.
    assert (size agentSignals <> 0%nat) as Hne by (unfold n in Hn; lia).
    rewrite (calcOverall_signal _ 3 Hne) by (unfold is_ceil_half; lia).
    fold b r. rewrite Hb, Hr. reflexivity.
  - intros Hn Hb Hr _. subst o.
    assert (size agentSignals <> 0%nat) as Hne by (unfold n in Hn; lia).
    rewrite (calcOverall_signal _ 3 Hne) by (unfold is_ceil_half; lia).
    fold b r. rewrite Hb, Hr. reflexivity.
Qed.

Lemma calcOverall_majority_rule_witness :
  verdicts_3_1_1 <> ∅
  /\ Overall.signal (calcOverall verdicts_3_1_1) = Bullish
  /\ Overall.signal (calcOverall verdicts_2_2_1) = Neutral
  /\ is_nearest_integer (mean_confidence verdicts_3_1_1)
       (Overall.confidence (calcOverall verdicts_3_1_1))
  /\ Overall.signal (calcOverall ∅) = Neutral.
Proof.
  assert (verdicts_3_1_1 <> ∅) as Hne.
  { apply map_size_non_empty_iff. vm_compute. discriminate. }
  pose proof (calcOverall_majority_rule verdicts_3_1_1) as (_ & H1 & H2 & _).
  pose proof (calcOverall_majority_rule verdicts_2_2_1) as (_ & _ & _ & H3).
  pose proof (calcOverall_majority_rule ∅) as (H0 & _).
  split; [exact Hne |].
  split; [apply H2; vm_compute; reflexivity |].
  split; [apply H3; vm_compute; reflexivity |].
  split; [apply (H1 Hne) | apply (H0 eq_refl)].
Defined.

(** The vote counts reported by [calcOverall] are the numbers of verdicts
    with each signal. *)
Lemma calcOverall_tally (agentSignals : gmap string LLMSignal) :
  let o := calcOverall agentSignals in
  Overall.bullish o = votes Bullish agentSignals
  /\ Overall.bearish o = votes Bearish agentSignals
  /\ Overall.neutral o = votes Neutral agentSignals.
Proof.
  intros o. subst o. destruct (decide (size agentSignals = 0%nat)) as [H0 | Hne].
  - rewrite (calcOverall_empty _ H0). apply map_size_empty_inv in H0. subst.
    unfold votes. rewrite !map_filter_empty, map_size_empty. simpl. auto.
  - rewrite (calcOverall_nonempty _ Hne). simpl.
    pose proof (votes_partition agentSignals). repeat split; lia.
Qed.

(** The collecting loop keeps, for each agent, its verdict for [code] if it
    returned one. *)
Lemma collectSignals_omap (agentSignalsMap : gmap string (gmap string LLMSignal))
    (code : string) :
  collectSignals agentSignalsMap code
  = omap (fun signals : gmap string LLMSignal => signals !! code) agentSignalsMap.
Proof.
  unfold collectSignals.
  apply (map_fold_weak_ind
           (fun r m => r = omap (fun signals : gmap string LLMSignal =>
                                   signals !! code) m)).
  - symmetry. apply omap_empty.
  - intros agentName signals m r Hfresh ->.
    destruct (signals !! code) as [s |] eqn:Hs.
    + symmetry. now apply omap_insert_Some.
    + rewrite omap_insert_None by exact Hs.
      rewrite delete_id; [reflexivity |].
      rewrite lookup_omap, Hfresh. reflexivity.
Qed.

Lemma size_omap {A B} (f : A -> option B) (m : gmap string A) :
  size (omap f m) = size (filter (fun kv : string * A => is_Some (f kv.2)) m).
Proof.
  induction m as [| k x m Hk IH] using map_ind.
  - now rewrite omap_empty, map_filter_empty, !map_size_empty.
  - destruct (f x) as [y |] eqn:Hfx.
    + rewrite (omap_insert_Some f m k x y Hfx).
      rewrite map_size_insert_None by (rewrite lookup_omap, Hk; reflexivity).
      rewrite map_filter_insert_True by (simpl; rewrite Hfx; eauto).
      rewrite map_size_insert_None; [now rewrite IH |].
      apply map_lookup_filter_None_2. now left.
    + rewrite (omap_insert_None f m k x Hfx).
      rewrite delete_id by (rewrite lookup_omap, Hk; reflexivity).
      rewrite map_filter_insert_not'; [exact IH | |].
      * simpl. rewrite Hfx. intros [? H]. discriminate H.
      * intros y Hy. rewrite Hk in Hy. discriminate Hy.
Qed.

(** C2: the vote tally of an aggregated verdict sums to the number of
    verdicts present, each bucket being the number of verdicts with that
    signal; an agent that returned no verdict for the holding is in no bucket
    and not in the total. *)
Theorem tally_sums_to_verdicts_present
    (agentSignals : gmap string LLMSignal)
    (agentSignalsMap : gmap string (gmap string LLMSignal)) (code : string) :
  let o := calcOverall agentSignals in
  let present := collectSignals agentSignalsMap code in
  let t := calcOverall present in
  ((Overall.bullish o + Overall.bearish o + Overall.neutral o)%Z
   = Z.of_nat (size agentSignals)
   /\ Overall.bullish o = votes Bullish agentSignals
   /\ Overall.bearish o = votes Bearish agentSignals
   /\ Overall.neutral o = votes Neutral agentSignals)
  /\ (forall agent : string,
        present !! agent
        = agentSignalsMap !! agent ≫= (fun signals => signals !! code))
  /\ (Overall.bullish t + Overall.bearish t + Overall.neutral t)%Z
     = Z.of_nat (size (filter
         (fun kv : string * gmap string LLMSignal => is_Some (kv.2 !! code))
         agentSignalsMap)).
Proof.
  intros o present t.
  assert (forall m : gmap string LLMSignal,
            let r := calcOverall m in
            (Overall.bullish r + Overall.bearish r + Overall.neutral r)%Z
            = Z.of_nat (size m)) as Hsum.
  { intros m r. destruct (calcOverall_tally m) as (Hb & Hr & Hn).
    subst r. rewrite Hb, Hr, Hn. apply votes_partition. }
  split; [| split].
  - split; [apply Hsum | apply calcOverall_tally].
  - intros agent. subst present.
    rewrite collectSignals_omap. apply lookup_omap.
  - subst t. rewrite Hsum. subst present.
    now rewrite collectSignals_omap, size_omap.
Qed.

(** The panel of the example: one of three agents has no verdict for the
    holding, and the tally counts the two that do. *)
Example partial_panel_tally :
  let t := calcOverall (collectSignals partial_panel "600183") in
  collectSignals partial_panel "600183" !! "BenGraham" = None
  /\ (Overall.bullish t, Overall.bearish t, Overall.neutral t) = (1, 0, 1)%Z
  /\ Overall.signal t = Bullish /\ Overall.confidence t = 55%Z.
Proof. vm_compute. repeat split; reflexivity. Qed.

End AggregatorProps.

(** ** Holding analyzer of the current panel *)

Module HoldingAnalyzerProps.

Import JS JSFacts AgentDecisions.
Local Open Scope Q_scope.

Lemma find_unresolved (allQuotes : list StockQuote.t) (code : string) :
  (forall q, q ∈ allQuotes -> StockQuote.code q <> code) ->
  List.find (fun d => String.eqb (StockQuote.code d) code) allQuotes = None.
Proof.
  induction allQuotes as [| d ds IH]; intros Hall; [reflexivity |].
  simpl. destruct (String.eqb_spec (StockQuote.code d) code) as [Heq | _].
  - exfalso. apply (Hall d); [left | exact Heq].
  - apply IH. intros q Hq. apply Hall. now right.
Qed.

(** Without a quote the entry is still produced, from price 0. *)
Lemma analyzeHolding_unresolved allQuotes agentSignalsMap (h : Holding.t) :
  (forall q, q ∈ allQuotes -> StockQuote.code q <> Holding.code h) ->
  let a := analyzeHolding allQuotes agentSignalsMap h in
  HoldingAnalysis.code a = Holding.code h
  /\ HoldingAnalysis.price a = 0
  /\ HoldingAnalysis.change a = 0
  /\ HoldingAnalysis.pnlPct a == (if gtb (Holding.cost h) 0 then -100 else 0).
Proof.
  intros Hall a. subst a. unfold analyzeHolding.
  rewrite (find_unresolved _ _ Hall). simpl.
  repeat split; try reflexivity.
  destruct (gtb (Holding.cost h) 0) eqn:Hc; [| reflexivity].
  apply gtb_gt in Hc. field. lra.
Qed.

Lemma fetchAnalysis_resolved holdings gw st qd ad :
  holdings <> [] ->
  fetch_quote gw = Resolved qd ->
  fetch_agents gw = Resolved ad ->
  fetch_market gw = Resolved tt ->
  agent_success ad = true ->
  fetchAnalysis holdings gw st
  = {| analyses :=
         List.map
           (analyzeHolding (if quote_success qd then quote_data qd else [])
              (match agent_data ad with Some m => m | None => ∅ end))
           holdings;
       loading := false;
       error := None |}.
Proof.
  intros Hne Hq Ha Hm Hs. unfold fetchAnalysis, fetchAnalysis_try.
  destruct holdings as [| h hs]; [congruence |].
  rewrite Hq, Ha, Hm, Hs. reflexivity.
Qed.

End HoldingAnalyzerProps.

(** ** First version of the panel *)

Module LegacyProps.

Import JS JSFacts Legacy ScreenerSpec.
Local Open Scope Q_scope.

(** *** Holding analysis *)

Lemma buildStockAnalysis_quote q h marketData allQuotes :
  let r := buildStockAnalysis q h marketData allQuotes in
  StockAnalysis.code r = StockQuote.code q
  /\ StockAnalysis.price r = StockQuote.current q
  /\ StockAnalysis.change r = StockQuote.percent q.
Proof. repeat split. Qed.

Lemma analyzeHoldings_elem holdings allQuotes marketData (r : StockAnalysis.t) :
  r ∈ analyzeHoldings holdings allQuotes marketData <->
  exists h q,
    h ∈ holdings
    /\ List.find (fun d => String.eqb (StockQuote.code d) (Holding.code h))
         allQuotes = Some q
    /\ r = buildStockAnalysis q h marketData allQuotes.
Proof.
  unfold analyzeHoldings. rewrite list_elem_of_omap. split.
  - intros (h & Hh & Hr). destruct (List.find _ allQuotes) as [q |] eqn:Hq;
      [| discriminate Hr].
    exists h, q. injection Hr as <-. auto.
  - intros (h & q & Hh & Hq & ->). exists h. rewrite Hq. auto.
Qed.

(** Every analysis produced comes from a quote of the batch, found under the
    code of a holding. *)
Lemma analyzeHoldings_resolved holdings allQuotes marketData (r : StockAnalysis.t) :
  r ∈ analyzeHoldings holdings allQuotes marketData ->
  exists h q,
    h ∈ holdings /\ q ∈ allQuotes
    /\ StockQuote.code q = Holding.code h
    /\ StockAnalysis.code r = StockQuote.code q
    /\ StockAnalysis.price r = StockQuote.current q
    /\ StockAnalysis.change r = StockQuote.percent q.
Proof.
  rewrite analyzeHoldings_elem. intros (h & q & Hh & Hq & ->).
  apply find_some in Hq as [Hin Hcode].
  apply String.eqb_eq in Hcode. apply list_elem_of_In in Hin.
  exists h, q. repeat split; assumption.
Qed.

Lemma analyzeHoldings_skips holdings allQuotes marketData (code : string) :
  (forall q, q ∈ allQuotes -> StockQuote.code q <> code) ->
  forall r, r ∈ analyzeHoldings holdings allQuotes marketData ->
    StockAnalysis.code r <> code.
Proof.
  intros Hall r Hr.
  destruct (analyzeHoldings_resolved _ _ _ _ Hr) as (h & q & _ & Hq & _ & Hc & _).
  rewrite Hc. now apply Hall.
Qed.

Ltac unfold_M :=
  unfold mbind, M_bind, await, when, modify, mret, M_ret.

Lemma refreshBuyCandidate_analyses gw md st :
  analyses (refreshBuyCandidate gw md st).1 = analyses st.
Proof.
  unfold refreshBuyCandidate. unfold_M.
  destruct (if success md then head (sectors md) else None) as [topSector |];
    [| reflexivity].
  destruct (fetch_sector_stocks gw (Sector.code topSector)) as [sd |];
    [| reflexivity].
  destruct (sector_success sd); [| reflexivity].
  destruct (pick HOLDINGS (stocks sd)); reflexivity.
Qed.

Lemma refreshAnalyses_value qd md st : (refreshAnalyses qd md st).2 = Some tt.
Proof.
  unfold refreshAnalyses. unfold_M.
  destruct (quote_success qd), (quote_data qd); reflexivity.
Qed.

Lemma refreshAnalyses_buyCandidate qd md st :
  buyCandidate (refreshAnalyses qd md st).1 = buyCandidate st.
Proof.
  unfold refreshAnalyses. unfold_M.
  destruct (quote_success qd), (quote_data qd); reflexivity.
Qed.

(** With both first requests answered, a refresh is the two blocks in turn. *)
Lemma fetchAll_answered gw st qd md :
  fetch_quote gw = Some qd ->
  fetch_market gw = Some md ->
  fetchAll gw st
  = setLoading false
      (refreshBuyCandidate gw md (refreshAnalyses qd md st).1).1.
Proof.
  intros Hq Hm. unfold fetchAll, fetchAll_try.
  unfold mbind at 1 2 3, M_bind at 1 2 3, await at 1 2.
  rewrite Hq, Hm.
  destruct (refreshAnalyses qd md st) as [st' [[] |]] eqn:Hr; [reflexivity |].
  pose proof (refreshAnalyses_value qd md st) as Hv.
  rewrite Hr in Hv. discriminate Hv.
Qed.

(** The steps of [fetchAll] after [setAnalyses] leave the analyses alone. *)
Lemma fetchAll_analyses gw st qd md allQuotes :
  fetch_quote gw = Some qd ->
  fetch_market gw = Some md ->
  quote_success qd = true ->
  quote_data qd = Some allQuotes ->
  analyses (fetchAll gw st)
  = analyzeHoldings HOLDINGS allQuotes
      (if success md then md else emptyMarketData).
Proof.
  intros Hq Hm Hs Hd. rewrite (fetchAll_answered _ _ _ _ Hq Hm).
  cbn [setLoading analyses]. rewrite refreshBuyCandidate_analyses.
  unfold refreshAnalyses. rewrite Hs, Hd. reflexivity.
Qed.

(** C3 as stated fails: with no quote resolved for the holding 600183 the
    current analyzer still lists it, with price 0, change 0 and a P&L of
    -100 percent, and records no error. *)
Lemma unresolved_quote_defaulted :
  (forall q, q ∈ ([] : list AgentDecisions.StockQuote.t) ->
     AgentDecisions.StockQuote.code q
     <> AgentDecisions.Holding.code AnalyzerScenarios.held)
  /\ exists a,
      AgentDecisions.fetchAnalysis [AnalyzerScenarios.held]
        AnalyzerScenarios.no_quotes AgentDecisions.initialState
      = {| AgentDecisions.analyses := [a];
           AgentDecisions.loading := false;
           AgentDecisions.error := None |}
      /\ AgentDecisions.HoldingAnalysis.code a = "600183"
      /\ AgentDecisions.HoldingAnalysis.price a = 0
      /\ AgentDecisions.HoldingAnalysis.change a = 0
      /\ AgentDecisions.HoldingAnalysis.pnlPct a == -100.
Proof.
  split; [intros q Hq; inversion Hq |].
  eexists. split; [reflexivity |]. repeat split.
Qed.

(** C3, amended: a holding whose quote is not in the batch is skipped without
    any report by the first version of the analyzer ([fetchAll]), whose
    analyses all carry the price and change of a quote of the batch; the
    current analyzer ([fetchAnalysis]) keeps it: it yields one analysis per
    holding, in order, with price 0 and change 0 for such a holding, and
    records no error. *)
Theorem unresolved_quote_handling :
  (forall holdings gw st qd ad (i : nat) (h : AgentDecisions.Holding.t),
     AgentDecisions.fetch_quote gw = AgentDecisions.Resolved qd ->
     AgentDecisions.fetch_agents gw = AgentDecisions.Resolved ad ->
     AgentDecisions.fetch_market gw = AgentDecisions.Resolved tt ->
     AgentDecisions.agent_success ad = true ->
     holdings !! i = Some h ->
     (forall q,
        q ∈ (if AgentDecisions.quote_success qd
             then AgentDecisions.quote_data qd else []) ->
        AgentDecisions.StockQuote.code q <> AgentDecisions.Holding.code h) ->
     List.length (AgentDecisions.analyses (AgentDecisions.fetchAnalysis holdings gw st))
     = List.length holdings
     /\ AgentDecisions.error (AgentDecisions.fetchAnalysis holdings gw st) = None
     /\ exists a,
         AgentDecisions.analyses (AgentDecisions.fetchAnalysis holdings gw st) !! i
         = Some a
         /\ AgentDecisions.HoldingAnalysis.code a = AgentDecisions.Holding.code h
         /\ AgentDecisions.HoldingAnalysis.price a = 0
         /\ AgentDecisions.HoldingAnalysis.change a = 0)
  /\ (forall gw st qd md allQuotes (h : Holding.t),
        fetch_quote gw = Some qd ->
        fetch_market gw = Some md ->
        quote_success qd = true ->
        quote_data qd = Some allQuotes ->
        h ∈ HOLDINGS ->
        (forall q, q ∈ allQuotes -> StockQuote.code q <> Holding.code h) ->
        (forall r, r ∈ analyses (fetchAll gw st) ->
           StockAnalysis.code r <> Holding.code h)
        /\ (forall r, r ∈ analyses (fetchAll gw st) ->
             exists q, q ∈ allQuotes
               /\ StockAnalysis.code r = StockQuote.code q
               /\ StockAnalysis.price r = StockQuote.current q
               /\ StockAnalysis.change r = StockQuote.percent q)).
Proof.
  split.
  - intros holdings gw st qd ad i h Hq Ha Hm Hs Hi Hall.
    assert (holdings <> []) as Hne by (intros ->; discriminate Hi).
    rewrite (HoldingAnalyzerProps.fetchAnalysis_resolved _ _ _ _ _ Hne Hq Ha Hm Hs).
    cbn [AgentDecisions.analyses AgentDecisions.error].
    split; [apply length_map |]. split; [reflexivity |].
    eexists. split.
    + change (List.map ?f holdings) with (f <$> holdings).
      rewrite list_lookup_fmap, Hi. reflexivity.
    + destruct (HoldingAnalyzerProps.analyzeHolding_unresolved _
                  (match AgentDecisions.agent_data ad with
                   | Some m => m | None => ∅ end) h Hall)
        as (Hc & Hp & Hch & _).
      auto.
  - intros gw st qd md allQuotes h Hq Hm Hs Hd Hh Hall.
    rewrite (fetchAll_analyses _ _ _ _ _ Hq Hm Hs Hd). split.
    + now apply analyzeHoldings_skips.
    + intros r Hr.
      destruct (analyzeHoldings_resolved _ _ _ _ Hr)
        as (h' & q & _ & Hin & _ & Hc & Hp & Hch).
      exists q. auto.
Qed.

Lemma unresolved_quote_handling_witness :
  (exists a,
     AgentDecisions.analyses
       (AgentDecisions.fetchAnalysis [AnalyzerScenarios.held]
          AnalyzerScenarios.no_quotes AgentDecisions.initialState) !! 0%nat
     = Some a
     /\ AgentDecisions.HoldingAnalysis.code a = "600183"
     /\ AgentDecisions.HoldingAnalysis.price a = 0
     /\ AgentDecisions.HoldingAnalysis.change a = 0)
  /\ (forall r,
        r ∈ analyses (fetchAll (gateway [AnalyzerScenarios.quote_600183] [])
                        initialState) ->
        StockAnalysis.code r <> "300394").
Proof.
  destruct unresolved_quote_handling as [Hcur Hold]. split.
  - apply (Hcur [AnalyzerScenarios.held] AnalyzerScenarios.no_quotes
             AgentDecisions.initialState _ _ 0%nat AnalyzerScenarios.held
             eq_refl eq_refl eq_refl eq_refl eq_refl).
    intros q Hq. inversion Hq.
  - apply (Hold (gateway [AnalyzerScenarios.quote_600183] []) initialState
             _ _ _ AnalyzerScenarios.held_300394 eq_refl eq_refl eq_refl eq_refl).
    + left.
    + intros q Hq. apply list_elem_of_singleton in Hq. subst q. discriminate.
Defined.

(** *** Buy-candidate screener *)

Lemma insert_sorted_perm {A} (cmp : A -> A -> Q) (x : A) (l : list A) :
  insert_sorted cmp x l ≡ₚ x :: l.
Proof.
  induction l as [| y l IH]; simpl; [reflexivity |].
  destruct (gtb (cmp x y) 0); [| reflexivity].
  rewrite IH. apply Permutation_swap.
Qed.

Lemma sort_perm {A} (cmp : A -> A -> Q) (l : list A) : sort cmp l ≡ₚ l.
Proof.
  induction l as [| x l IH]; simpl; [reflexivity |].
  rewrite insert_sorted_perm. now rewrite IH.
Qed.

Lemma eligible_spec (s : SectorStock.t) : eligible s = true <-> Eligible s.
Proof.
  unfold eligible, Eligible.
  rewrite !andb_true_iff, !gtb_gt, ltb_lt. tauto.
Qed.

Lemma elem_of_holdingCodes holdings (c : string) :
  c ∈ holdingCodes holdings <-> exists h, h ∈ holdings /\ Holding.code h = c.
Proof.
  unfold holdingCodes. rewrite elem_of_list_to_set, list_elem_of_In, in_map_iff.
  split; intros (h & H1 & H2); exists h.
  - split; [now apply list_elem_of_In | exact H1].
  - split; [exact H2 | now apply list_elem_of_In].
Qed.

Lemma elem_of_available holdings stocks (s : SectorStock.t) :
  s ∈ available holdings stocks <->
  s ∈ stocks /\ forall h, h ∈ holdings -> Holding.code h <> SectorStock.code s.
Proof.
  unfold available. rewrite list_elem_of_In, filter_In, <- list_elem_of_In.
  rewrite negb_true_iff, bool_decide_eq_false, elem_of_holdingCodes.
  split; intros [Hs Hn]; (split; [exact Hs |]).
  - intros h Hh Hc. apply Hn. eauto.
  - intros (h & Hh & Hc). exact (Hn h Hh Hc).
Qed.

Lemma elem_of_candidates (av : list SectorStock.t) (c : SectorStock.t) :
  c ∈ candidates av <-> c ∈ av /\ Eligible c.
Proof.
  unfold candidates. rewrite sort_perm.
  rewrite list_elem_of_In, filter_In, <- list_elem_of_In, eligible_spec.
  reflexivity.
Qed.


Lemma pick_available holdings stocks (p : SectorStock.t) :
  pick holdings stocks = Some p -> p ∈ available holdings stocks.
Proof.
  unfold pick. destruct (candidates _ !! 0%nat) as [c |] eqn:Hc.
  - intros [= <-]. apply list_elem_of_lookup_2 in Hc.
    now apply elem_of_candidates in Hc as [Hc _].
  - intros Hp. now apply list_elem_of_lookup_2 in Hp.
Qed.




Lemma refreshBuyCandidate_cases gw md st :
  buyCandidate (refreshBuyCandidate gw md st).1 = buyCandidate st
  \/ exists topSector sectorStocks p,
       pick HOLDINGS sectorStocks = Some p
       /\ buyCandidate (refreshBuyCandidate gw md st).1
          = Some (mkBuyCandidate topSector p).
Proof.
  unfold refreshBuyCandidate. unfold_M.
  destruct (if success md then head (sectors md) else None) as [topSector |];
    [| now left].
  destruct (fetch_sector_stocks gw (Sector.code topSector)) as [sd |];
    [| now left].
  destruct (sector_success sd); [| now left].
  destruct (pick HOLDINGS (stocks sd)) as [p |] eqn:Hp; [| now left].
  right. exists topSector, (stocks sd), p. split; [exact Hp | reflexivity].
Qed.

(** A refresh either leaves the buy candidate as it was or sets it to a pick
    of the screener. *)
Lemma fetchAll_buyCandidate_cases gw st :
  buyCandidate (fetchAll gw st) = buyCandidate st
  \/ exists topSector sectorStocks p,
       pick HOLDINGS sectorStocks = Some p
       /\ buyCandidate (fetchAll gw st) = Some (mkBuyCandidate topSector p).
Proof.
  destruct (fetch_quote gw) as [qd |] eqn:Hq.
  - destruct (fetch_market gw) as [md |] eqn:Hm.
    + rewrite (fetchAll_answered _ _ _ _ Hq Hm). cbn [setLoading buyCandidate].
      destruct (refreshBuyCandidate_cases gw md (refreshAnalyses qd md st).1)
        as [Hsame | Hset].
      * left. rewrite Hsame. apply refreshAnalyses_buyCandidate.
      * right. exact Hset.
    + left. unfold fetchAll, fetchAll_try. unfold_M. rewrite Hq, Hm. reflexivity.
  - left. unfold fetchAll, fetchAll_try. unfold_M. rewrite Hq. reflexivity.
Qed.





Lemma pick_not_held holdings stocks (h : Holding.t) (p : SectorStock.t) :
  h ∈ holdings -> pick holdings stocks = Some p ->
  SectorStock.code p <> Holding.code h.
Proof.
  intros Hh Hp Hc. apply pick_available, elem_of_available in Hp as [_ Hp].
  now apply (Hp h Hh).
Qed.

Lemma fetchAll_not_held gw st : not_held st -> not_held (fetchAll gw st).
Proof.
  intros Hinv c h Hc Hh.
  destruct (fetchAll_buyCandidate_cases gw st)
    as [Hsame | (topSector & sectorStocks & p & Hp & Hset)].
  - rewrite Hsame in Hc. now apply (Hinv c h).
  - rewrite Hset in Hc. injection Hc as <-. simpl.
    now apply (pick_not_held HOLDINGS sectorStocks).
Qed.

Lemma run_not_held gws st : not_held st -> not_held (run gws st).
Proof.
  revert st. induction gws as [| gw gws IH]; intros st Hinv; [exact Hinv |].
  simpl. apply IH. now apply fetchAll_not_held.
Qed.

(** C5: no stock of the candidate pool has the code of a holding, so the
    screener never picks a held stock, and after any number of refreshes the
    buy candidate is not a held stock. *)
Theorem candidate_pool_excludes_holdings :
  (forall holdings stocks (h : Holding.t) (s : SectorStock.t),
     h ∈ holdings -> s ∈ available holdings stocks ->
     SectorStock.code s <> Holding.code h)
  /\ (forall holdings stocks (h : Holding.t) (p : SectorStock.t),
        h ∈ holdings -> pick holdings stocks = Some p ->
        SectorStock.code p <> Holding.code h)
  /\ (forall gws (h : Holding.t) (c : BuyCandidate.t),
        h ∈ HOLDINGS -> buyCandidate (run gws initialState) = Some c ->
        BuyCandidate.code c <> Holding.code h).
Proof.
  split; [| split].
  - intros holdings stocks h s Hh Hs Hc.
    apply elem_of_available in Hs as [_ Hs]. now apply (Hs h Hh).
  - intros holdings stocks h p. apply pick_not_held.
  - intros gws h c Hh Hc.
    apply (run_not_held gws initialState); [| exact Hc | exact Hh].
    intros c' h' Hc'. discriminate Hc'.
Qed.

Lemma candidate_pool_excludes_holdings_witness :
  held_300308 ∈ HOLDINGS
  /\ pick HOLDINGS falling_sector = Some weak_outflow
  /\ SectorStock.code weak_outflow <> Holding.code held_300308
  /\ buyCandidate (run [gateway [] falling_sector] initialState)
     = Some (mkBuyCandidate top_sector weak_outflow)
  /\ BuyCandidate.code (mkBuyCandidate top_sector weak_outflow)
     <> Holding.code held_300308.
Proof.
  assert (held_300308 ∈ HOLDINGS) as Hh.
  { apply list_elem_of_In. simpl. auto. }
  assert (pick HOLDINGS falling_sector = Some weak_outflow) as Hp
    by (vm_compute; reflexivity).
  assert (buyCandidate (run [gateway [] falling_sector] initialState)
          = Some (mkBuyCandidate top_sector weak_outflow)) as Hc
    by (vm_compute; reflexivity).
  destruct candidate_pool_excludes_holdings as (_ & Hpick & Hrun).
  split; [exact Hh | split; [exact Hp | split; [| split; [exact Hc |]]]].
  - exact (Hpick HOLDINGS falling_sector held_300308 weak_outflow Hh Hp).
  - exact (Hrun [gateway [] falling_sector] held_300308 _ Hh Hc).
Defined.

(** *** Composite score of the buy candidate *)

Lemma Math_min_spec x y : Math_min x y == Qmin x y.
Proof.
  unfold Math_min. destruct (Qle_bool x y) eqn:E.
  - apply Qle_bool_iff in E. symmetry. now apply Q.min_l.
  - apply leb_gt in E. symmetry. apply Q.min_r. lra.
Qed.

Lemma Math_min_mono_r x y y' : y <= y' -> Math_min x y <= Math_min x y'.
Proof.
  intros Hle. rewrite !Math_min_spec. apply Q.min_le_compat_l. exact Hle.
Qed.

Lemma scoreOf_spec (p : SectorStock.t) :
  scoreOf p == composite_score_spec (SectorStock.mainNetInflow p).
Proof. unfold scoreOf, composite_score_spec. apply Math_min_spec. Qed.

Lemma scoreOf_mono (p1 p2 : SectorStock.t) :
  SectorStock.mainNetInflow p1 <= SectorStock.mainNetInflow p2 ->
  scoreOf p1 <= scoreOf p2.
Proof.
  intros Hle. unfold scoreOf. apply Math_min_mono_r.
  apply Qplus_le_r. apply Qmult_le_compat_r; [| discriminate].
  unfold Qdiv. apply Qmult_le_compat_r; [exact Hle | discriminate].
Qed.

(** C7 as stated fails: both stocks below are picked by the screener (through
    the fallback), the second has the larger net inflow magnitude and the
    smaller score. *)
Lemma composite_score_not_monotone_in_magnitude :
  (exists c1 c2,
     buyCandidate (fetchAll (gateway [] [weak_outflow]) initialState) = Some c1
     /\ buyCandidate (fetchAll (gateway [] [strong_outflow]) initialState) = Some c2
     /\ BuyCandidate.code c1 = SectorStock.code weak_outflow
     /\ BuyCandidate.code c2 = SectorStock.code strong_outflow
     /\ BuyCandidate.score c2 < BuyCandidate.score c1)
  /\ Math_abs (SectorStock.mainNetInflow weak_outflow)
     < Math_abs (SectorStock.mainNetInflow strong_outflow)
  /\ scoreOf strong_outflow < scoreOf weak_outflow.
Proof.
  split; [| split; reflexivity].
  do 2 eexists. split; [reflexivity |]. split; [reflexivity |].
  repeat split.
Qed.

(** C7, amended: the composite score of the buy candidate is
    min(85, 60 + netInflow / 1e8 x 2); no aggregated confidence enters it (two
    picks with the same net inflow score the same); it is non-decreasing in
    the signed net inflow, hence in the inflow magnitude among stocks with a
    non-negative net inflow, as every eligible stock has. *)
Theorem composite_score_rule :
  (forall topSector (p : SectorStock.t),
     BuyCandidate.score (mkBuyCandidate topSector p)
     == composite_score_spec (SectorStock.mainNetInflow p))
  /\ (forall p1 p2 : SectorStock.t,
        SectorStock.mainNetInflow p1 == SectorStock.mainNetInflow p2 ->
        scoreOf p1 == scoreOf p2)
  /\ (forall p1 p2 : SectorStock.t,
        SectorStock.mainNetInflow p1 <= SectorStock.mainNetInflow p2 ->
        scoreOf p1 <= scoreOf p2)
  /\ (forall p1 p2 : SectorStock.t,
        0 <= SectorStock.mainNetInflow p1 ->
        0 <= SectorStock.mainNetInflow p2 ->
        Math_abs (SectorStock.mainNetInflow p1)
        <= Math_abs (SectorStock.mainNetInflow p2) ->
        scoreOf p1 <= scoreOf p2)
  /\ (forall p : SectorStock.t, Eligible p -> 0 <= SectorStock.mainNetInflow p).
Proof.
  split; [| split; [| split; [| split]]].
  - intros topSector p. apply scoreOf_spec.
  - intros p1 p2 Heq. apply Qle_antisym; apply scoreOf_mono; lra.
  - apply scoreOf_mono.
  - intros p1 p2 H1 H2 Habs. apply scoreOf_mono.
    unfold Math_abs in Habs. now rewrite !Qabs_pos in Habs.
  - intros p (_ & _ & Hpos). lra.
Qed.

Lemma composite_score_rule_witness :
  scoreOf (stock "688981" 3 250000000) <= scoreOf (stock "603986" 4 400000000)
  /\ scoreOf (stock "688981" 3 250000000) == 65
  /\ scoreOf (stock "603986" 4 400000000) == 68.
Proof.
  destruct composite_score_rule as (_ & _ & _ & Hmag & _).
  split; [| split; reflexivity].
  apply Hmag; vm_compute; intros H; discriminate H.
Defined.

End LegacyProps.

(** * Further properties of the code *)

(** ** Risk gauge *)

Module RiskGaugeMore.

Import JS JSFacts RiskGauge RiskGaugeSpec RiskGaugeView ExtraScenarios.
Local Open Scope Q_scope.









Lemma rawScore_mono_exposure_loss r1 r2 c pnl1 pnl2 :
  r1 <= r2 -> pnl2 <= pnl1 -> (rawScore r1 c pnl1 <= rawScore r2 c pnl2)%Z.
Proof.
  intros Hr Hp. unfold rawScore. repeat case_cmp; try lia; lra.
Qed.

(** X3: with the concentration fixed, a larger exposure ratio together with
    a lower P&L percent never gives a smaller risk score. *)
Theorem risk_score_monotone_in_exposure_and_loss (p1 p2 : PortfolioSummary) :
  0 < totalAssets p1 ->
  0 < totalAssets p2 ->
  concentration p1 == concentration p2 ->
  positionRatio p1 <= positionRatio p2 ->
  currentPnlPct p2 <= currentPnlPct p1 ->
  (targetScore (Some p1) <= targetScore (Some p2))%Z.
Proof.
  intros H1 H2 Hc Hr Hp.
  rewrite !RiskGaugeProps.targetScore_scored by assumption.
  rewrite Hc.
  pose proof (rawScore_mono_exposure_loss _ _ (concentration p2) _ _ Hr Hp).
  lia.
Qed.

Lemma risk_score_monotone_in_exposure_and_loss_witness :
  (targetScore (Some scenario) <= targetScore (Some stressed))%Z
  /\ targetScore (Some scenario) = 30%Z
  /\ targetScore (Some stressed) = 70%Z.
Proof.
  split; [| split; reflexivity].
  apply (risk_score_monotone_in_exposure_and_loss scenario stressed);
    [reflexivity | reflexivity | vm_compute; reflexivity
    | vm_compute; intros H; discriminate H
    | vm_compute; intros H; discriminate H].
Defined.

End RiskGaugeMore.

(** ** Signal aggregator and current panel *)

Module AgentDecisionsMore.

Import JS JSFacts AgentDecisions AggregatorSpec AggregatorProps.
Import AgentDecisionsView ExtraScenarios.
Local Open Scope Q_scope.

Lemma Math_round_bounds (lo hi : Z) (x : Q) :
  inject_Z lo <= x -> x <= inject_Z hi -> (lo <= Math_round x <= hi)%Z.
Proof.
  intros Hlo Hhi. destruct (Math_round_spec x) as [H1 H2]. split.
  - assert (inject_Z lo < inject_Z (Math_round x + 1)) as H
      by (rewrite inject_Z_plus; change (inject_Z 1) with 1; lra).
    rewrite <- Zlt_Qlt in H. lia.
  - assert (inject_Z (Math_round x) < inject_Z (hi + 1)) as H
      by (rewrite inject_Z_plus; change (inject_Z 1) with 1; lra).
    rewrite <- Zlt_Qlt in H. lia.
Qed.

Lemma foldr_sum_bounds {A} (f : A -> Q) (lo hi : Q) (l : list A) :
  (forall v, In v l -> lo <= f v /\ f v <= hi) ->
  inject_Z (Z.of_nat (List.length l)) * lo <= foldr (fun v s => f v + s) 0 l
  /\ foldr (fun v s => f v + s) 0 l <= inject_Z (Z.of_nat (List.length l)) * hi.
Proof.
  induction l as [| v l IH]; intros Hall.
  - change (inject_Z (Z.of_nat (List.length (@nil A)))) with 0. simpl. split; lra.
  - destruct IH as [IH1 IH2]; [intros w Hw; apply Hall; now right |].
    destruct (Hall v (or_introl eq_refl)) as [Hv1 Hv2].
    change (List.length (v :: l)) with (S (List.length l)).
    rewrite Nat2Z.inj_succ. unfold Z.succ. rewrite inject_Z_plus.
    change (inject_Z 1) with 1. cbn [foldr].
    split; lra.
Qed.

(** The mean of values between [lo] and [hi] lies between [lo] and [hi]. *)
Lemma mean_bounds {A} (f : A -> Q) (lo hi : Q) (l : list A) :
  l <> [] ->
  (forall v, In v l -> lo <= f v /\ f v <= hi) ->
  lo <= sum_by f l / inject_Z (Z.of_nat (List.length l))
  /\ sum_by f l / inject_Z (Z.of_nat (List.length l)) <= hi.
Proof.
  intros Hne Hall. destruct (foldr_sum_bounds f lo hi l Hall) as [H1 H2].
  assert (0 < inject_Z (Z.of_nat (List.length l))) as Hn.
  { change 0 with (inject_Z 0). rewrite <- Zlt_Qlt.
    destruct l; [congruence | simpl; lia]. }
  rewrite sum_by_foldr. split.
  - apply Qle_shift_div_l; [exact Hn |]. lra.
  - apply Qle_shift_div_r; [exact Hn |]. lra.
Qed.

Lemma elem_of_Object_values {V} (o : gmap string V) (v : V) :
  In v (Object_values o) -> exists name, o !! name = Some v.
Proof.
  unfold Object_values. intros Hin. apply list_elem_of_In in Hin.
  apply list_elem_of_fmap in Hin as ([name w] & -> & Hin).
  exists name. now apply elem_of_map_to_list.
Qed.

(** X4: the overall confidence of a non-empty verdict set never leaves the
    range of the individual confidences: if every confidence lies between
    the integers lo and hi, so does the aggregate. *)
Theorem overall_confidence_within_inputs
    (agentSignals : gmap string LLMSignal) (lo hi : Z) :
  agentSignals <> ∅ ->
  (forall name v, agentSignals !! name = Some v ->
     inject_Z lo <= confidence v /\ confidence v <= inject_Z hi) ->
  (lo <= Overall.confidence (calcOverall agentSignals) <= hi)%Z.
Proof.
  intros Hne Hall. apply map_size_non_empty_iff in Hne.
  rewrite (calcOverall_nonempty _ Hne). cbn [Overall.confidence].
  rewrite <- length_Object_values.
  assert (Object_values agentSignals <> []) as Hvals.
  { intros Hnil. apply Hne. rewrite <- length_Object_values, Hnil. reflexivity. }
  destruct (mean_bounds confidence (inject_Z lo) (inject_Z hi)
              (Object_values agentSignals) Hvals) as [H1 H2].
  { intros v Hv. destruct (elem_of_Object_values _ _ Hv) as [name Hname].
    exact (Hall name v Hname). }
  now apply Math_round_bounds.
Qed.

Lemma overall_confidence_within_inputs_witness :
  (50 <= Overall.confidence (calcOverall verdicts_3_1_1) <= 80)%Z.
Proof.
  apply (overall_confidence_within_inputs verdicts_3_1_1 50 80).
  - apply map_size_non_empty_iff. vm_compute. discriminate.
  - intros name v Hv. apply elem_of_map_to_list in Hv.
    vm_compute in Hv.
    repeat (apply elem_of_cons in Hv as [Hv | Hv];
            [injection Hv as _ ->; split; vm_compute; discriminate |]).
    inversion Hv.
Defined.

Lemma votes_all (s : Signal) (verdicts : gmap string LLMSignal) :
  (forall name v, verdicts !! name = Some v -> signal v = s) ->
  votes s verdicts = Z.of_nat (size verdicts).
Proof.
  intros Hall. unfold votes. rewrite map_filter_id; [reflexivity |].
  intros name v Hv. exact (Hall name v Hv).
Qed.

(** X5: for a non-empty verdict set the overall signal is bullish exactly
    when at least half of the verdicts are bullish (an even split between
    bullish and bearish is bullish), bearish exactly when fewer than half are
    bullish and at least half are bearish; and unanimous verdicts give their
    common signal. *)
Theorem half_of_the_votes_decides (agentSignals : gmap string LLMSignal) :
  agentSignals <> ∅ ->
  let n := Z.of_nat (size agentSignals) in
  let b := votes Bullish agentSignals in
  let r := votes Bearish agentSignals in
  let o := calcOverall agentSignals in
  (Overall.signal o = Bullish <-> (n <= 2 * b)%Z)
  /\ (Overall.signal o = Bearish <-> (2 * b < n <= 2 * r)%Z)
  /\ (forall s, (forall name v, agentSignals !! name = Some v -> signal v = s) ->
      Overall.signal o = s).
Proof.
  intros Hne n b r o. apply map_size_non_empty_iff in Hne.
  assert (Overall.signal o
          = majority_signal ((n + 1) / 2) b r) as Hsig
    by (apply calcOverall_signal; [exact Hne | apply ceil_half_spec]).
  pose proof (ceil_half_spec n) as Hceil. unfold is_ceil_half in Hceil.
  pose proof (votes_partition agentSignals) as Hpart. fold n b r in Hpart.
  pose proof (votes_nonneg Bullish agentSignals).
  pose proof (votes_nonneg Bearish agentSignals).
  pose proof (votes_nonneg Neutral agentSignals).
  assert (0 < n)%Z as Hn by (unfold n; lia).
  rewrite Hsig. unfold majority_signal.
  split; [| split].
  - repeat case_decide; split; intros; try discriminate; try reflexivity; lia.
  - repeat case_decide; split; intros; try discriminate; try reflexivity; lia.
  - intros s Hall. pose proof (votes_all s agentSignals Hall) as Hs. fold n in Hs.
    destruct s; fold b in Hs || fold r in Hs || idtac;
      repeat case_decide; try reflexivity; lia.
Qed.

Lemma half_of_the_votes_decides_witness :
  votes Bullish verdicts_tie = votes Bearish verdicts_tie
  /\ Overall.signal (calcOverall verdicts_tie) = Bullish.
Proof.
  split; [reflexivity |].
  assert (verdicts_tie <> ∅) as Hne.
  { apply map_size_non_empty_iff. vm_compute. discriminate. }
  destruct (half_of_the_votes_decides verdicts_tie Hne) as [Hb _].
  apply Hb. vm_compute. discriminate.
Defined.

(** *** Portfolio rollup *)

Lemma foldr_sum_perm {A} (f : A -> Q) (l l' : list A) :
  l ≡ₚ l' ->
  foldr (fun v s => f v + s) 0 l == foldr (fun v s => f v + s) 0 l'.
Proof.
  induction 1 as [| x l l' _ IH | x y l | l l' l'' _ IH1 _ IH2]; simpl.
  - reflexivity.
  - rewrite IH. reflexivity.
  - lra.
  - now rewrite IH1.
Qed.

Lemma sum_by_perm {A} (f : A -> Q) (l l' : list A) :
  l ≡ₚ l' -> sum_by f l == sum_by f l'.
Proof. intros Hp. rewrite !sum_by_foldr. now apply foldr_sum_perm. Qed.

Lemma sum_by_map {A B} (f : B -> Q) (g : A -> B) (l : list A) :
  sum_by f (List.map g l) == sum_by (fun a => f (g a)) l.
Proof.
  rewrite !sum_by_foldr. induction l as [| a l IH]; simpl; [reflexivity |].
  now rewrite IH.
Qed.

Lemma filter_length_map {A B} (p : B -> bool) (g : A -> B) (l : list A) :
  List.length (List.filter p (List.map g l))
  = List.length (List.filter (fun a => p (g a)) l).
Proof.
  induction l as [| a l IH]; simpl; [reflexivity |].
  destruct (p (g a)); simpl; congruence.
Qed.

Lemma holdingVerdicts_values (analyses : list HoldingAnalysis.t) :
  NoDup (List.map HoldingAnalysis.code analyses) ->
  Object_values (holdingVerdicts analyses) ≡ₚ List.map verdictOf analyses.
Proof.
  intros Hnd. unfold Object_values, holdingVerdicts.
  rewrite map_to_list_to_map.
  - change (List.map ?f ?l) with (f <$> l). rewrite <- list_fmap_compose.
    reflexivity.
  - change (List.map ?f ?l) with (f <$> l). rewrite <- list_fmap_compose.
    exact Hnd.
Qed.

Lemma countSignal_partition (analyses : list HoldingAnalysis.t) :
  (countSignal Bullish analyses + countSignal Bearish analyses
   + countSignal Neutral analyses = Z.of_nat (List.length analyses))%Z.
Proof.
  unfold countSignal. induction analyses as [| a l IH]; [reflexivity |].
  simpl. destruct (HoldingAnalysis.overallSignal a); simpl in *; lia.
Qed.

Lemma votes_holdingVerdicts (s : Signal) (analyses : list HoldingAnalysis.t) :
  NoDup (List.map HoldingAnalysis.code analyses) ->
  votes s (holdingVerdicts analyses) = countSignal s analyses.
Proof.
  intros Hnd. rewrite <- votes_count.
  rewrite (filter_length_perm _ _ _ (holdingVerdicts_values _ Hnd)).
  rewrite filter_length_map. reflexivity.
Qed.

(** X6: the portfolio rollup applies to the holdings' overall verdicts the
    very rule [calcOverall] applies to agents' verdicts: for holdings with
    distinct codes its counts, signal and average confidence are those of
    [calcOverall] on one verdict per holding; the three counts sum to the
    number of holdings. *)
Theorem rollup_is_calcOverall (analyses : list HoldingAnalysis.t) :
  NoDup (List.map HoldingAnalysis.code analyses) ->
  let o := calcOverall (holdingVerdicts analyses) in
  let r := rollup analyses in
  portfolioSignal r = Overall.signal o
  /\ avgConf r = Overall.confidence o
  /\ bullishCount r = Overall.bullish o
  /\ bearishCount r = Overall.bearish o
  /\ neutralCount r = Overall.neutral o
  /\ (bullishCount r + bearishCount r + neutralCount r
      = Z.of_nat (List.length analyses))%Z.
Proof.
  intros Hnd o r.
  assert (size (holdingVerdicts analyses) = List.length analyses) as Hsize.
  { rewrite <- length_Object_values.
    rewrite (Permutation_length (holdingVerdicts_values _ Hnd)).
    apply length_map. }
  pose proof (countSignal_partition analyses) as Hpart.
  destruct analyses as [| a l].
  - subst o r. repeat split.
  - assert (size (holdingVerdicts (a :: l)) <> 0%nat) as Hne
      by (rewrite Hsize; discriminate).
    subst o. rewrite (calcOverall_nonempty _ Hne).
    rewrite !(votes_holdingVerdicts _ _ Hnd), Hsize.
    subst r. unfold rollup.
    set (n := Z.of_nat (List.length (a :: l))) in *.
    assert ((n >? 0)%Z = true) as Hn by (apply Z.gtb_lt; unfold n; simpl; lia).
    rewrite Hn, Math_ceil_half.
    cbn [portfolioSignal avgConf bullishCount bearishCount neutralCount
         Overall.signal Overall.confidence Overall.bullish Overall.bearish
         Overall.neutral].
    repeat split; try lia.
    apply Math_round_proper.
    rewrite (sum_by_perm _ _ _ (holdingVerdicts_values _ Hnd)), sum_by_map.
    reflexivity.
Qed.

Lemma rollup_is_calcOverall_witness :
  portfolioSignal (rollup three_analyses) = Bullish
  /\ avgConf (rollup three_analyses) = 63%Z
  /\ Overall.signal (calcOverall (holdingVerdicts three_analyses)) = Bullish
  /\ Overall.confidence (calcOverall (holdingVerdicts three_analyses)) = 63%Z.
Proof.
  assert (NoDup (List.map HoldingAnalysis.code three_analyses)) as Hnd.
  { apply (bool_decide_unpack _). vm_compute. exact I. }
  destruct (rollup_is_calcOverall three_analyses Hnd) as (Hs & Hc & _).
  rewrite <- Hs, <- Hc. repeat split.
Defined.

(** *** Refresh of the holding analysis *)

Lemma or_default_nonempty (s : option string) (fallback : string) :
  fallback <> "" -> or_default s fallback <> "".
Proof.
  intros Hf. unfold or_default. destruct s as [m |]; [| exact Hf].
  destruct (String.eqb_spec m ""); assumption.
Qed.

(** X7: when a refresh fails - a request is rejected or the agents backend
    reports failure - the analyses shown are those of the last successful
    refresh, the loading flag is cleared and a non-empty error message is
    set; with no holdings a refresh changes nothing. *)
Theorem failed_refresh_keeps_analyses
    (holdings : list Holding.t) (gw : Gateway) (st : State) :
  (forall qd ad,
     fetch_quote gw = Resolved qd -> fetch_agents gw = Resolved ad ->
     fetch_market gw = Resolved tt -> agent_success ad = false) ->
  fetchAnalysis [] gw st = st
  /\ (holdings <> [] ->
      analyses (fetchAnalysis holdings gw st) = analyses st
      /\ loading (fetchAnalysis holdings gw st) = false
      /\ exists message,
          error (fetchAnalysis holdings gw st) = Some message /\ message <> "").
Proof.
  intros Hfail. split; [reflexivity |]. intros Hne.
  destruct holdings as [| h hs]; [congruence |].
  unfold fetchAnalysis, fetchAnalysis_try.
  destruct (fetch_quote gw) as [m1 | qd] eqn:Hq;
    [| destruct (fetch_agents gw) as [m2 | ad] eqn:Ha;
       [| destruct (fetch_market gw) as [m3 | []] eqn:Hm] ].
  - repeat split. eexists. split; [reflexivity |].
    now apply or_default_nonempty.
  - repeat split. eexists. split; [reflexivity |].
    now apply or_default_nonempty.
  - repeat split. eexists. split; [reflexivity |].
    now apply or_default_nonempty.
  - rewrite (Hfail qd ad eq_refl eq_refl eq_refl). repeat split.
    eexists. split; [reflexivity |]. now apply or_default_nonempty.
Qed.

Lemma failed_refresh_keeps_analyses_witness :
  analyses (fetchAnalysis [AnalyzerScenarios.held] offline
              (setAnalyses three_analyses initialState))
  = three_analyses
  /\ error (fetchAnalysis [AnalyzerScenarios.held] offline
              (setAnalyses three_analyses initialState))
     = Some "Failed to fetch".
Proof.
  destruct (failed_refresh_keeps_analyses [AnalyzerScenarios.held] offline
              (setAnalyses three_analyses initialState)) as [_ H].
  { intros qd ad Hq. discriminate Hq. }
  destruct H as (Ha & _ & _); [discriminate |].
  split; [exact Ha | reflexivity].
Defined.

(** *** Expanded card: every verdict in one section *)

Lemma config_names_not_inherited :
  forall name, In name (List.map fst AGENT_CONFIG) ->
    ~ In name Object_prototype_keys.
Proof.
  intros name Hin. simpl in Hin.
  repeat (destruct Hin as [<- | Hin];
          [intros H; repeat (destruct H as [H | H]; [discriminate H |]);
           exact H |]).
  destruct Hin.
Qed.

Lemma config_names_NoDup : NoDup (List.map fst AGENT_CONFIG).
Proof. apply (bool_decide_unpack _). vm_compute. exact I. Qed.

(** The configuration lists its agents group by group, in [GROUP_ORDER]. *)
Lemma config_grouped :
  List.flat_map
    (fun g => List.map fst
       (List.filter (fun nc : string * AgentConfig => String.eqb (group nc.2) g)
          AGENT_CONFIG))
    GROUP_ORDER
  = List.map fst AGENT_CONFIG.
Proof. vm_compute. reflexivity. Qed.

Lemma filter_names (P : string -> bool) (a : AgentConfig -> bool)
    (l : list (string * AgentConfig)) :
  List.map fst (List.filter (fun '(name, cfg) => a cfg && P name) l)
  = List.filter P
      (List.map fst (List.filter (fun nc : string * AgentConfig => a nc.2) l)).
Proof.
  induction l as [| [name cfg] l IH]; [reflexivity |].
  simpl. destruct (a cfg); simpl; [| exact IH].
  destruct (P name); simpl; now rewrite IH.
Qed.

Lemma flat_map_filter_names (P : string -> bool)
    (l : list (string * AgentConfig)) (groups : list string) :
  List.flat_map
    (fun g => List.map fst
       (List.filter (fun '(name, cfg) => String.eqb (group cfg) g && P name) l))
    groups
  = List.filter P
      (List.flat_map
         (fun g => List.map fst
            (List.filter
               (fun nc : string * AgentConfig => String.eqb (group nc.2) g) l))
         groups).
Proof.
  induction groups as [| g gs IH]; [reflexivity |].
  cbn [List.flat_map]. rewrite IH, List.filter_app. f_equal.
  apply (filter_names P (fun cfg => String.eqb (group cfg) g)).
Qed.

Lemma shownInGroups_filter (agentSignals : gmap string LLMSignal) :
  shownInGroups agentSignals
  = List.filter (truthy_at (Object_keys agentSignals)) (List.map fst AGENT_CONFIG).
Proof.
  unfold shownInGroups, groupAgents.
  rewrite (flat_map_filter_names (truthy_at (Object_keys agentSignals))).
  now rewrite config_grouped.
Qed.

Lemma truthy_at_spec (own : list string) (name : string) :
  truthy_at own name = true <-> In name own \/ In name Object_prototype_keys.
Proof.
  unfold truthy_at.
  rewrite orb_true_iff, !bool_decide_eq_true, !list_elem_of_In. reflexivity.
Qed.

(** X8: in an expanded card every verdict of the holding is listed exactly
    once - in the section of its configured group or in the fallback section
    - provided no agent is named like a member of [Object.prototype]; a
    verdict stored under such a name (for instance "constructor") is listed
    nowhere. *)
Theorem every_verdict_listed_once (agentSignals : gmap string LLMSignal) :
  ((forall name, In name (Object_keys agentSignals) ->
      ~ In name Object_prototype_keys) ->
   shown agentSignals ≡ₚ Object_keys agentSignals)
  /\ shown inherited_name = [].
Proof.
  split; [| vm_compute; reflexivity].
  intros Hsafe. unfold shown. rewrite shownInGroups_filter.
  apply NoDup_Permutation.
  - apply NoDup_app. split; [| split].
    + apply NoDup_ListNoDup, List.NoDup_filter, NoDup_ListNoDup.
      apply config_names_NoDup.
    + intros x Hx Hx'. apply list_elem_of_In, filter_In in Hx as [Hcfg _].
      unfold shownInFallback in Hx'.
      apply list_elem_of_In, filter_In in Hx' as [_ Hno].
      apply negb_true_iff in Hno.
      assert (truthy_at (List.map fst AGENT_CONFIG) x = true) as Hyes
        by (apply truthy_at_spec; now left).
      congruence.
    + unfold shownInFallback.
      apply NoDup_ListNoDup, List.NoDup_filter, NoDup_ListNoDup.
      unfold Object_keys. apply NoDup_fst_map_to_list.
  - unfold Object_keys. apply NoDup_fst_map_to_list.
  - intros x. unfold shownInFallback.
    rewrite elem_of_app, !list_elem_of_In, !filter_In. cbv beta.
    rewrite negb_true_iff, <- not_true_iff_false, !truthy_at_spec. split.
    + intros [[Hcfg [Hown | Hproto]] | [Hown _]]; try assumption.
      destruct (config_names_not_inherited x Hcfg Hproto).
    + intros Hown.
      destruct (in_dec string_dec x (List.map fst AGENT_CONFIG)) as [Hcfg | Hno].
      * left. auto.
      * right. split; [exact Hown |]. intros [Hcfg | Hproto]; [auto |].
        exact (Hsafe x Hown Hproto).
Qed.

Lemma mixed_panel_keys :
  Object_keys mixed_panel = ["WarrenBuffett"; "QuantBot"; "RiskManager"].
Proof. vm_compute. reflexivity. Defined.

Lemma every_verdict_listed_once_witness :
  shown mixed_panel ≡ₚ Object_keys mixed_panel
  /\ shown mixed_panel = ["WarrenBuffett"; "RiskManager"; "QuantBot"].
Proof.
  destruct (every_verdict_listed_once mixed_panel) as [H _].
  split; [| vm_compute; reflexivity].
  apply H. rewrite mixed_panel_keys. intros name Hin Hproto.
  repeat (destruct Hin as [<- | Hin];
          [repeat (destruct Hproto as [Hproto | Hproto];
                   [discriminate Hproto |]); exact Hproto |]).
  exact Hin.
Defined.

(** *** Pick card *)

(** X9: the score bar of a pick card is full exactly for scores from 66.5
    up, so it does not tell such scores apart; it never exceeds 100 percent,
    and it is not negative as long as the score is at least -0.5. *)
Theorem score_bar_saturates (pick : PickResult.t) :
  (barWidth pick == 100 <-> 66.5 <= PickResult.score pick)
  /\ barWidth pick <= 100
  /\ (-0.5 <= PickResult.score pick -> 0 <= barWidth pick).
Proof.
  unfold barWidth, scorePercent.
  destruct (Math_round_spec (PickResult.score pick)) as [H1 H2].
  set (c := Math_round (PickResult.score pick)) in *.
  assert (forall k : Z, inject_Z k <= PickResult.score pick + (1 # 2) ->
            (k <= c)%Z) as Hge.
  { intros k Hk.
    assert (inject_Z k < inject_Z (c + 1)) as H
      by (rewrite inject_Z_plus; change (inject_Z 1) with 1; lra).
    rewrite <- Zlt_Qlt in H. lia. }
  assert (forall k : Z, (k <= c)%Z -> inject_Z k <= inject_Z c) as Hinj
    by (intros k Hk; now rewrite <- Zle_Qle).
  unfold Math_min.
  destruct (Qle_bool (inject_Z c * 1.5) 100) eqn:E.
  - apply Qle_bool_iff in E. split; [| split].
    + split.
      * intros Heq.
        assert (inject_Z c < inject_Z 67 -> False) as Hnot.
        { rewrite <- Zlt_Qlt. intros Hlt.
          assert (inject_Z c <= inject_Z 66) as H66
            by (rewrite <- Zle_Qle; lia).
          change (inject_Z 66) with 66 in H66. lra. }
        assert (67 <= c)%Z as Hc.
        { destruct (Z_lt_le_dec c 67) as [Hlt | Hle]; [| exact Hle].
          exfalso. apply Hnot. now rewrite <- Zlt_Qlt. }
        apply Hinj in Hc. change (inject_Z 67) with 67 in Hc. lra.
      * intros Hs. specialize (Hge 67%Z).
        change (inject_Z 67) with 67 in Hge.
        assert (67 <= c)%Z as Hc by (apply Hge; lra).
        apply Hinj in Hc. change (inject_Z 67) with 67 in Hc. lra.
    + exact E.
    + intros Hs. specialize (Hge 0%Z). change (inject_Z 0) with 0 in Hge.
      assert (0 <= c)%Z as Hc by (apply Hge; lra).
      apply Hinj in Hc. change (inject_Z 0) with 0 in Hc. lra.
  - apply leb_gt in E. split; [| split].
    + split; [intros _ | reflexivity].
      assert (inject_Z c <= inject_Z 66 -> False) as Hnot
        by (change (inject_Z 66) with 66; lra).
      assert (67 <= c)%Z as Hc.
      { destruct (Z_lt_le_dec c 67) as [Hlt | Hle]; [| exact Hle].
        exfalso. apply Hnot. rewrite <- Zle_Qle. lia. }
      apply Hinj in Hc. change (inject_Z 67) with 67 in Hc. lra.
    + lra.
    + lra.
Qed.

Lemma score_bar_saturates_witness :
  barWidth (pick_with_score 66.5) == 100
  /\ barWidth (pick_with_score 85) == 100
  /\ barWidth (pick_with_score 66.4) == 99.
Proof.
  destruct (score_bar_saturates (pick_with_score 66.5)) as [[_ H1] _].
  destruct (score_bar_saturates (pick_with_score 85)) as [[_ H2] _].
  split; [apply H1; vm_compute; discriminate |].
  split; [apply H2; vm_compute; discriminate | reflexivity].
Defined.

End AgentDecisionsMore.

(** ** First version of the panel: analysts, rollup, refresh, screener *)

Module LegacyMore.

Import JS JSFacts Legacy LegacyView ScreenerSpec LegacyProps ExtraScenarios.
Local Open Scope Q_scope.

(** *** Confidence of the analysts *)

Lemma confidenceOf_range (cap base step score : Z) :
  (base <= cap)%Z -> (0 <= step)%Z ->
  inject_Z base <= confidenceOf cap base step score
  /\ confidenceOf cap base step score <= inject_Z cap.
Proof.
  intros Hbc Hstep. unfold confidenceOf. rewrite <- !Zle_Qle.
  pose proof (Z.abs_nonneg score). nia.
Qed.

Lemma analyst_confidences
    (q : StockQuote.t) (h : Holding.t) (marketData : MarketData)
    (allQuotes : list StockQuote.t) :
  (55 <= AgentAnalysis.confidence (runMarketAnalyst q marketData) <= 85)
  /\ (58 <= AgentAnalysis.confidence (runTechAnalyst q) <= 88)
  /\ (52 <= AgentAnalysis.confidence (runFundAnalyst q h) <= 80)
  /\ (52 <= AgentAnalysis.confidence (runSentimentAnalyst q marketData) <= 82)
  /\ (60 <= AgentAnalysis.confidence (runRiskManager q h allQuotes) <= 85)
  /\ (55 <= StockAnalysis.overallConfidence
              (buildStockAnalysis q h marketData allQuotes) <= 84)%Z.
Proof.
  assert (forall cap base step score, (base <= cap)%Z -> (0 <= step)%Z ->
            inject_Z base <= confidenceOf cap base step score
            <= inject_Z cap) as Hrange
    by (intros; now apply confidenceOf_range).
  assert (55 <= AgentAnalysis.confidence (runMarketAnalyst q marketData) <= 85)
    as H1 by (apply (Hrange 85 55 8)%Z; lia).
  assert (58 <= AgentAnalysis.confidence (runTechAnalyst q) <= 88)
    as H2 by (apply (Hrange 88 58 8)%Z; lia).
  assert (52 <= AgentAnalysis.confidence (runFundAnalyst q h) <= 80)
    as H3 by (apply (Hrange 80 52 8)%Z; lia).
  assert (52 <= AgentAnalysis.confidence (runSentimentAnalyst q marketData) <= 82)
    as H4 by (apply (Hrange 82 52 9)%Z; lia).
  assert (60 <= AgentAnalysis.confidence (runRiskManager q h allQuotes) <= 85)
    as H5 by (apply (Hrange 85 60 6)%Z; lia).
  repeat (split; [assumption |]).
  unfold buildStockAnalysis. cbn [StockAnalysis.overallConfidence].
  apply AgentDecisionsMore.Math_round_bounds.
  - unfold sum_by. cbn [fold_left List.length].
    apply Qle_shift_div_l; [reflexivity |].
    change (inject_Z 55) with 55. change (inject_Z (Z.of_nat 5)) with 5. lra.
  - unfold sum_by. cbn [fold_left List.length].
    apply Qle_shift_div_r; [reflexivity |].
    change (inject_Z 84) with 84. change (inject_Z (Z.of_nat 5)) with 5. lra.
Qed.

(** X10: whatever the quote, the holding and the market data, each of the
    five analysts reports a confidence between its base and its cap
    (55..85, 58..88, 52..80, 52..82, 60..85), and the overall confidence of
    the stock lies between 55 and 84. *)
Theorem legacy_confidence_ranges
    (q : StockQuote.t) (h : Holding.t) (marketData : MarketData)
    (allQuotes : list StockQuote.t) :
  (55 <= AgentAnalysis.confidence (runMarketAnalyst q marketData) <= 85)
  /\ (58 <= AgentAnalysis.confidence (runTechAnalyst q) <= 88)
  /\ (52 <= AgentAnalysis.confidence (runFundAnalyst q h) <= 80)
  /\ (52 <= AgentAnalysis.confidence (runSentimentAnalyst q marketData) <= 82)
  /\ (60 <= AgentAnalysis.confidence (runRiskManager q h allQuotes) <= 85)
  /\ (55 <= StockAnalysis.overallConfidence
              (buildStockAnalysis q h marketData allQuotes) <= 84)%Z.
Proof. apply analyst_confidences. Qed.

(** *** Overall signal of a stock *)

Lemma action_votes_partition (l : list AgentAnalysis.t) :
  (List.length (List.filter (fun x => bool_decide (AgentAnalysis.signal x = buy)) l)
   + List.length (List.filter (fun x => bool_decide (AgentAnalysis.signal x = sell)) l)
   + List.length (List.filter (fun x => bool_decide (AgentAnalysis.signal x = hold)) l)
   = List.length l)%nat.
Proof.
  induction l as [| a l IH]; [reflexivity |].
  simpl. destruct (AgentAnalysis.signal a); simpl in *; lia.
Qed.

Lemma runRiskManager_never_buys q h allQuotes :
  AgentAnalysis.signal (runRiskManager q h allQuotes) <> buy.
Proof.
  unfold runRiskManager. cbn [AgentAnalysis.signal].
  repeat match goal with
         | |- context [if ?b then _ else _] => destruct b
         end; discriminate.
Qed.

(** X11: the overall signal of a stock is buy exactly when at least three of
    its five analysts say buy, and sell exactly when at least three say sell
    (the two cannot happen together); the risk manager never says buy, so a
    buy needs three of the other four analysts. *)
Theorem legacy_overall_needs_three_votes
    (q : StockQuote.t) (h : Holding.t) (marketData : MarketData)
    (allQuotes : list StockQuote.t) :
  let r := buildStockAnalysis q h marketData allQuotes in
  let votes (a : Action) :=
    List.length
      (List.filter (fun x => bool_decide (AgentAnalysis.signal x = a))
         (StockAnalysis.agents r)) in
  List.length (StockAnalysis.agents r) = 5%nat
  /\ (StockAnalysis.overallSignal r = buy <-> (3 <= votes buy)%nat)
  /\ (StockAnalysis.overallSignal r = sell <-> (3 <= votes sell)%nat)
  /\ AgentAnalysis.signal (runRiskManager q h allQuotes) <> buy
  /\ (StockAnalysis.overallSignal r = buy ->
      (3 <= List.length
              (List.filter (fun x => bool_decide (AgentAnalysis.signal x = buy))
                 [runMarketAnalyst q marketData; runTechAnalyst q;
                  runFundAnalyst q h; runSentimentAnalyst q marketData]))%nat).
Proof.
  intros r votes.
  pose proof (action_votes_partition (StockAnalysis.agents r)) as Hpart.
  fold (votes buy) (votes sell) (votes hold) in Hpart.
  assert (List.length (StockAnalysis.agents r) = 5%nat) as Hlen by reflexivity.
  rewrite Hlen in Hpart.
  assert (StockAnalysis.overallSignal r
          = if (3 <=? votes sell)%nat then sell
            else if (3 <=? votes buy)%nat then buy else hold) as Hsig
    by reflexivity.
  pose proof (runRiskManager_never_buys q h allQuotes) as Hrisk.
  assert (StockAnalysis.overallSignal r = buy <-> (3 <= votes buy)%nat) as Hbuy.
  { rewrite Hsig.
    destruct (Nat.leb_spec 3 (votes sell)), (Nat.leb_spec 3 (votes buy));
      split; intros; try discriminate; try reflexivity; lia. }
  split; [exact Hlen | split; [exact Hbuy | split; [| split; [exact Hrisk |]]]].
  - rewrite Hsig.
    destruct (Nat.leb_spec 3 (votes sell)), (Nat.leb_spec 3 (votes buy));
      split; intros; try discriminate; try reflexivity; lia.
  - intros Hb. apply Hbuy in Hb. unfold votes in Hb.
    change (StockAnalysis.agents r)
      with ([runMarketAnalyst q marketData; runTechAnalyst q;
             runFundAnalyst q h; runSentimentAnalyst q marketData]
            ++ [runRiskManager q h allQuotes]) in Hb.
    assert (List.filter (fun x => bool_decide (AgentAnalysis.signal x = buy))
              [runRiskManager q h allQuotes] = []) as Hnone.
    { cbn [List.filter]. now rewrite bool_decide_eq_false_2 by exact Hrisk. }
    rewrite List.filter_app, length_app, Hnone in Hb.
    change (List.length (@nil AgentAnalysis.t)) with 0%nat in Hb. lia.
Qed.

Lemma legacy_overall_needs_three_votes_witness :
  StockAnalysis.overallSignal
    (buildStockAnalysis surging_600183 held_600183 market [surging_600183]) = buy
  /\ (3 <= List.length
             (List.filter
                (fun x => bool_decide (AgentAnalysis.signal x = buy))
                [runMarketAnalyst surging_600183 market;
                 runTechAnalyst surging_600183;
                 runFundAnalyst surging_600183 held_600183;
                 runSentimentAnalyst surging_600183 market]))%nat.
Proof.
  destruct (legacy_overall_needs_three_votes surging_600183 held_600183 market
              [surging_600183]) as (_ & _ & _ & _ & Hbuy).
  assert (StockAnalysis.overallSignal
            (buildStockAnalysis surging_600183 held_600183 market
               [surging_600183]) = buy) as Hb by (vm_compute; reflexivity).
  split; [exact Hb | exact (Hbuy Hb)].
Defined.

(** *** What a sequence of refreshes can show *)

Lemma fetchAll_analyses_cases gw st :
  analyses (fetchAll gw st) = analyses st
  \/ exists allQuotes marketData,
       analyses (fetchAll gw st) = analyzeHoldings HOLDINGS allQuotes marketData.
Proof.
  destruct (fetch_quote gw) as [qd |] eqn:Hq.
  - destruct (fetch_market gw) as [md |] eqn:Hm.
    + rewrite (fetchAll_answered _ _ _ _ Hq Hm). cbn [setLoading analyses].
      rewrite refreshBuyCandidate_analyses. unfold refreshAnalyses. unfold_M.
      destruct (quote_success qd); [| now left].
      destruct (quote_data qd) as [allQuotes |]; [| now left].
      right. eexists _, _. reflexivity.
    + left. unfold fetchAll, fetchAll_try. unfold_M. rewrite Hq, Hm. reflexivity.
  - left. unfold fetchAll, fetchAll_try. unfold_M. rewrite Hq. reflexivity.
Qed.

(** Whatever is shown after some refreshes is the analysis of one quote
    batch, or nothing. *)
Lemma run_analyses gws st :
  (analyses st = []
   \/ exists allQuotes marketData,
        analyses st = analyzeHoldings HOLDINGS allQuotes marketData) ->
  analyses (run gws st) = []
  \/ exists allQuotes marketData,
       analyses (run gws st) = analyzeHoldings HOLDINGS allQuotes marketData.
Proof.
  revert st. induction gws as [| gw gws IH]; intros st Hst; [exact Hst |].
  simpl. apply IH.
  destruct (fetchAll_analyses_cases gw st) as [Hsame | Hnew].
  - now rewrite Hsame.
  - now right.
Qed.

Lemma analyzeHoldings_codes holdings allQuotes marketData :
  List.map StockAnalysis.code (analyzeHoldings holdings allQuotes marketData)
  `sublist_of` List.map Holding.code holdings.
Proof.
  unfold analyzeHoldings. induction holdings as [| h l IH]; [constructor |].
  cbn [omap list_omap List.map].
  destruct (List.find _ allQuotes) as [q |] eqn:Hq.
  - apply find_some in Hq as [_ Hc]. apply String.eqb_eq in Hc.
    cbn [List.map]. change (StockAnalysis.code (buildStockAnalysis q h marketData allQuotes))
      with (StockQuote.code q).
    rewrite Hc. now apply sublist_skip.
  - now apply sublist_cons.
Qed.

Lemma holding_codes_NoDup : NoDup (List.map Holding.code HOLDINGS).
Proof. apply (bool_decide_unpack _). vm_compute. exact I. Qed.

(** X12: after any sequence of refreshes the analysed stocks are holdings,
    each at most once and in the order of the holdings list: their codes form
    a sub-list of the holdings' codes. *)
Theorem analysed_codes_follow_holdings (gws : list Gateway) :
  List.map StockAnalysis.code (analyses (run gws initialState))
  `sublist_of` List.map Holding.code HOLDINGS
  /\ NoDup (List.map StockAnalysis.code (analyses (run gws initialState)))
  /\ (List.length (analyses (run gws initialState)) <= 6)%nat.
Proof.
  assert (List.map StockAnalysis.code (analyses (run gws initialState))
          `sublist_of` List.map Holding.code HOLDINGS) as Hsub.
  { destruct (run_analyses gws initialState (or_introl eq_refl))
      as [-> | (allQuotes & md & ->)].
    - apply sublist_nil_l.
    - apply analyzeHoldings_codes. }
  split; [exact Hsub | split].
  - eapply sublist_NoDup; [exact holding_codes_NoDup | exact Hsub].
  - apply sublist_length in Hsub. rewrite !length_map in Hsub. exact Hsub.
Qed.

Lemma countAction_partition (l : list StockAnalysis.t) :
  (countAction buy l + countAction sell l + countAction hold l
   = List.length l)%nat.
Proof.
  unfold countAction. induction l as [| a l IH]; [reflexivity |].
  simpl. destruct (StockAnalysis.overallSignal a); simpl in *; lia.
Qed.

Lemma countAction_le a (l : list StockAnalysis.t) :
  (countAction a l <= List.length l)%nat.
Proof. unfold countAction. apply List.filter_length_le. Qed.

Lemma analyzeHoldings_confidence holdings allQuotes marketData r :
  In r (analyzeHoldings holdings allQuotes marketData) ->
  (55 <= StockAnalysis.overallConfidence r <= 84)%Z.
Proof.
  intros Hin. apply list_elem_of_In, analyzeHoldings_elem in Hin
    as (h & q & _ & _ & ->).
  apply analyst_confidences.
Qed.

(** X13: after any sequence of refreshes the rollup counts sum to the number
    of analysed stocks, the average confidence is 0 (nothing analysed) or
    lies between 55 and 84, the overall signal is hold while fewer than three
    stocks are analysed, and three sell verdicts give sell even against
    three buy verdicts. *)
Theorem legacy_rollup_invariant (gws : list Gateway) :
  let shown := analyses (run gws initialState) in
  let r := LegacyView.rollup shown in
  (buyCount r + sellCount r + holdCount r = List.length shown)%nat
  /\ (avgConf r = 0%Z \/ (55 <= avgConf r <= 84)%Z)
  /\ ((List.length shown < 3)%nat -> overallSignal r = hold)
  /\ ((3 <= sellCount r)%nat -> overallSignal r = sell).
Proof.
  intros shown r. split; [apply countAction_partition | split; [| split]].
  - subst r. unfold rollup. cbn [avgConf].
    destruct (Nat.ltb_spec 0 (List.length shown)) as [Hpos | _]; [| now left].
    right. apply AgentDecisionsMore.Math_round_bounds.
    + apply (AgentDecisionsMore.mean_bounds
               (fun a => inject_Z (StockAnalysis.overallConfidence a))
               (inject_Z 55) (inject_Z 84)).
      * intros Hnil. rewrite Hnil in Hpos. simpl in Hpos. lia.
      * intros a Ha. rewrite <- !Zle_Qle.
        destruct (run_analyses gws initialState (or_introl eq_refl))
          as [Hnil | (allQuotes & md & Heq)].
        -- fold shown in Hnil. rewrite Hnil in Ha. destruct Ha.
        -- fold shown in Heq. rewrite Heq in Ha.
           apply (analyzeHoldings_confidence _ _ _ _ Ha).
    + apply (AgentDecisionsMore.mean_bounds
               (fun a => inject_Z (StockAnalysis.overallConfidence a))
               (inject_Z 55) (inject_Z 84)).
      * intros Hnil. rewrite Hnil in Hpos. simpl in Hpos. lia.
      * intros a Ha. rewrite <- !Zle_Qle.
        destruct (run_analyses gws initialState (or_introl eq_refl))
          as [Hnil | (allQuotes & md & Heq)].
        -- fold shown in Hnil. rewrite Hnil in Ha. destruct Ha.
        -- fold shown in Heq. rewrite Heq in Ha.
           apply (analyzeHoldings_confidence _ _ _ _ Ha).
  - intros Hfew. subst r. unfold rollup. cbn [overallSignal].
    pose proof (countAction_le sell shown). pose proof (countAction_le buy shown).
    destruct (Nat.leb_spec 3 (countAction sell shown)); [lia |].
    destruct (Nat.leb_spec 3 (countAction buy shown)); [lia | reflexivity].
  - intros Hsell. subst r. unfold rollup in *. cbn [overallSignal sellCount] in *.
    destruct (Nat.leb_spec 3 (countAction sell shown)); [reflexivity | lia].
Qed.

Lemma legacy_rollup_invariant_witness :
  (List.length (analyses (run [gateway [AnalyzerScenarios.quote_600183] []]
                            initialState)) < 3)%nat
  /\ overallSignal
       (LegacyView.rollup
          (analyses (run [gateway [AnalyzerScenarios.quote_600183] []]
                       initialState))) = hold
  /\ avgConf
       (LegacyView.rollup
          (analyses (run [gateway [AnalyzerScenarios.quote_600183] []]
                       initialState))) = 59%Z.
Proof.
  assert (List.length (analyses (run [gateway [AnalyzerScenarios.quote_600183] []]
                                   initialState)) < 3)%nat as Hfew
    by (vm_compute; lia).
  destruct (legacy_rollup_invariant [gateway [AnalyzerScenarios.quote_600183] []])
    as (_ & _ & Hhold & _).
  split; [exact Hfew | split; [exact (Hhold Hfew) | vm_compute; reflexivity]].
Defined.

(** *** Refreshes that fail part of the way *)

(** X14: a refresh whose quote or market request is rejected changes nothing
    but the loading flag; a quote answer without usable data keeps the
    analyses shown before; a rejected sector request, a market answer without
    success or without sectors keep the buy candidate shown before - also
    when the analyses were just replaced. *)
Theorem partial_refresh_keeps_last_result (gw : Gateway) (st : State) :
  (fetch_quote gw = None \/ fetch_market gw = None ->
   fetchAll gw st = setLoading false st)
  /\ (forall qd md,
        fetch_quote gw = Some qd -> fetch_market gw = Some md ->
        quote_success qd = false \/ quote_data qd = None ->
        analyses (fetchAll gw st) = analyses st)
  /\ (forall qd md,
        fetch_quote gw = Some qd -> fetch_market gw = Some md ->
        (success md = false \/ sectors md = []
         \/ exists topSector,
              head (sectors md) = Some topSector
              /\ fetch_sector_stocks gw (Sector.code topSector) = None) ->
        buyCandidate (fetchAll gw st) = buyCandidate st).
Proof.
  split; [| split].
  - intros Hrej. unfold fetchAll, fetchAll_try. unfold_M.
    destruct (fetch_quote gw) as [qd |]; [| reflexivity].
    destruct Hrej as [Hrej | Hrej]; [discriminate Hrej |].
    rewrite Hrej. reflexivity.
  - intros qd md Hq Hm Hbad. rewrite (fetchAll_answered _ _ _ _ Hq Hm).
    cbn [setLoading analyses]. rewrite refreshBuyCandidate_analyses.
    unfold refreshAnalyses. unfold_M.
    destruct Hbad as [-> | ->]; [reflexivity |].
    destruct (quote_success qd); reflexivity.
  - intros qd md Hq Hm Hbad. rewrite (fetchAll_answered _ _ _ _ Hq Hm).
    cbn [setLoading buyCandidate].
    rewrite <- (refreshAnalyses_buyCandidate qd md st).
    generalize (refreshAnalyses qd md st).1. intros st'.
    unfold refreshBuyCandidate. unfold_M.
    destruct Hbad as [-> | [-> | (topSector & Ht & Hs)]].
    + reflexivity.
    + destruct (success md); reflexivity.
    + destruct (success md); [| reflexivity]. rewrite Ht, Hs. reflexivity.
Qed.

Lemma partial_refresh_keeps_last_result_witness :
  fetchAll quotes_down (fetchAll (gateway [] rising_sector) initialState)
  = fetchAll (gateway [] rising_sector) initialState
  /\ buyCandidate (fetchAll sector_down
                     (fetchAll (gateway [] rising_sector) initialState))
     = buyCandidate (fetchAll (gateway [] rising_sector) initialState)
  /\ List.length (analyses (fetchAll sector_down
                     (fetchAll (gateway [] rising_sector) initialState)))
     = 1%nat.
Proof.
  destruct (partial_refresh_keeps_last_result quotes_down
              (fetchAll (gateway [] rising_sector) initialState)) as (H1 & _).
  destruct (partial_refresh_keeps_last_result sector_down
              (fetchAll (gateway [] rising_sector) initialState)) as (_ & _ & H3).
  split; [| split].
  - rewrite H1 by (left; reflexivity). reflexivity.
  - eapply H3; [reflexivity | reflexivity |].
    right. right. exists top_sector. split; reflexivity.
  - vm_compute. reflexivity.
Defined.

(** *** The pick among eligible stocks *)

Lemma insert_sorted_head (x : SectorStock.t) (l : list SectorStock.t) :
  (forall p, head l = Some p ->
     forall s, In s l ->
       SectorStock.mainNetInflow s <= SectorStock.mainNetInflow p) ->
  forall p,
    head (insert_sorted
            (fun a b => SectorStock.mainNetInflow b - SectorStock.mainNetInflow a)
            x l) = Some p ->
    forall s, In s (x :: l) ->
      SectorStock.mainNetInflow s <= SectorStock.mainNetInflow p.
Proof.
  intros Hl p Hp s Hs. destruct l as [| y l'].
  - injection Hp as <-. destruct Hs as [<- | []]. lra.
  - cbn [insert_sorted] in Hp.
    destruct (gtb (SectorStock.mainNetInflow y - SectorStock.mainNetInflow x) 0)
      eqn:Hc.
    + apply gtb_gt in Hc. injection Hp as <-.
      destruct Hs as [<- | Hs]; [lra | exact (Hl y eq_refl s Hs)].
    + apply gtb_le in Hc. injection Hp as <-.
      destruct Hs as [<- | Hs]; [lra |].
      pose proof (Hl y eq_refl s Hs). lra.
Qed.

Lemma sort_head_largest (l : list SectorStock.t) :
  forall p,
    head (sort (fun a b => SectorStock.mainNetInflow b - SectorStock.mainNetInflow a)
            l) = Some p ->
    forall s, In s l ->
      SectorStock.mainNetInflow s <= SectorStock.mainNetInflow p.
Proof.
  induction l as [| x l IH]; intros p Hp s Hs; [destruct Hs |].
  set (cmp := fun a b : SectorStock.t =>
                SectorStock.mainNetInflow b - SectorStock.mainNetInflow a) in *.
  change (sort cmp (x :: l)) with (insert_sorted cmp x (sort cmp l)) in Hp.
  apply (insert_sorted_head x _) with (s := s) in Hp.
  - exact Hp.
  - intros p' Hp' s' Hs'. apply (IH p' Hp').
    apply list_elem_of_In. apply list_elem_of_In in Hs'.
    now rewrite sort_perm in Hs'.
  - destruct Hs as [<- | Hs]; [now left | right].
    apply list_elem_of_In. rewrite sort_perm. now apply list_elem_of_In.
Qed.

(** X15: whenever some not-held stock of the sector is eligible, the pick is
    an eligible not-held stock whose main net inflow is at least that of
    every eligible not-held stock. *)
Theorem pick_has_largest_inflow
    (holdings : list Holding.t) (stocks : list SectorStock.t)
    (s : SectorStock.t) :
  s ∈ available holdings stocks ->
  Eligible s ->
  exists p,
    pick holdings stocks = Some p
    /\ p ∈ available holdings stocks
    /\ Eligible p
    /\ SectorStock.mainNetInflow s <= SectorStock.mainNetInflow p.
Proof.
  intros Hs He.
  assert (s ∈ candidates (available holdings stocks)) as Hc
    by (apply elem_of_candidates; auto).
  unfold pick. rewrite <- head_lookup.
  destruct (candidates (available holdings stocks)) as [| p cs] eqn:Hcs;
    [inversion Hc |].
  exists p. cbn [head].
  assert (p ∈ candidates (available holdings stocks)) as Hp
    by (rewrite Hcs; left).
  apply elem_of_candidates in Hp as [Hpa Hpe].
  split; [reflexivity | split; [exact Hpa | split; [exact Hpe |]]].
  apply (sort_head_largest (List.filter eligible (available holdings stocks))).
  - unfold candidates in Hcs. now rewrite Hcs.
  - apply filter_In. split; [now apply list_elem_of_In | now apply eligible_spec].
Qed.

Lemma pick_has_largest_inflow_witness :
  pick HOLDINGS rising_sector = Some (stock "603986" 5 400000000)
  /\ exists p,
      pick HOLDINGS rising_sector = Some p
      /\ p ∈ available HOLDINGS rising_sector
      /\ Eligible p
      /\ SectorStock.mainNetInflow (stock "688981" 3 250000000)
         <= SectorStock.mainNetInflow p.
Proof.
  split; [vm_compute; reflexivity |].
  apply (pick_has_largest_inflow HOLDINGS rising_sector
           (stock "688981" 3 250000000)).
  - apply elem_of_available. split.
    + right. left.
    + intros h Hh. apply list_elem_of_In in Hh. simpl in Hh.
      repeat (destruct Hh as [<- | Hh]; [discriminate |]). destruct Hh.
  - repeat split.
Defined.

(** *** Range of the composite score *)

Lemma scoreOf_linear (p : SectorStock.t) :
  60 + SectorStock.mainNetInflow p / 1e8 * 2
  == 60 + SectorStock.mainNetInflow p * (1 # 50000000).
Proof.
  unfold Qdiv. change (/ 1e8) with (1 # 100000000). ring.
Qed.

(** X16: an eligible stock always scores above 60 and at most 85; the score
    is 85 exactly from a net inflow of 1.25 billion up; a stock without net
    inflow scores at most 60, and the score is negative exactly when the net
    outflow exceeds 3 billion. *)
Theorem composite_score_ranges (p : SectorStock.t) :
  (Eligible p -> 60 < scoreOf p /\ scoreOf p <= 85)
  /\ (scoreOf p == 85 <-> 1250000000 <= SectorStock.mainNetInflow p)
  /\ (SectorStock.mainNetInflow p <= 0 -> scoreOf p <= 60)
  /\ (scoreOf p < 0 <-> SectorStock.mainNetInflow p < -3000000000).
Proof.
  unfold scoreOf, Math_min, Eligible.
  pose proof (scoreOf_linear p) as Hlin.
  destruct (Qle_bool 85 (60 + SectorStock.mainNetInflow p / 1e8 * 2)) eqn:E.
  - apply Qle_bool_iff in E. rewrite Hlin in E.
    repeat split; intros; try lra.
  - apply leb_gt in E. rewrite Hlin in *.
    repeat split; intros; try lra.
Qed.

Lemma composite_score_ranges_witness :
  60 < scoreOf (stock "603986" 5 400000000)
  /\ scoreOf (stock "603986" 5 400000000) <= 85
  /\ scoreOf (stock "688012" 3 1250000000) == 85.
Proof.
  destruct (composite_score_ranges (stock "603986" 5 400000000)) as (H1 & _).
  destruct (composite_score_ranges (stock "688012" 3 1250000000)) as (_ & H2 & _).
  destruct H1 as [Ha Hb]; [repeat split |].
  split; [exact Ha | split; [exact Hb |]].
  apply H2. vm_compute. discriminate.
Defined.

End LegacyMore.

(** ** Quote routes *)

Module QuoteRouteProps.

Import Stdlib.Strings.Ascii.
Import QuoteRoute.

Lemma substring_all (s : string) : String.substring 0 (String.length s) s = s.
Proof. induction s as [| a s IH]; simpl; [reflexivity | now rewrite IH]. Qed.

Lemma strip_two (a b : Ascii.ascii) (s : string) :
  String.substring 2 (String.length (String a (String b s)) - 2)
    (String a (String b s)) = s.
Proof. simpl. rewrite Nat.sub_0_r. apply substring_all. Qed.

(** X17: stripping the exchange prefix from the upstream symbol built for a
    code gives the code back, whatever the code, so a quote is found again
    under the code it was asked for. *)
Theorem symbol_round_trip (c : string) :
  codeOfSymbol (toSymbol c) = c
  /\ (toSymbol c = ("SH" ++ c)%string \/ toSymbol c = ("SZ" ++ c)%string).
Proof.
  unfold toSymbol, market.
  destruct (String.prefix "6" c || String.eqb c "000001")%bool.
  - split; [| now left]. unfold codeOfSymbol.
    change ("SH" ++ c)%string with (String "S"%char (String "H"%char c)).
    assert (String.prefix "SH" (String "S"%char (String "H"%char c)) = true) as ->
      by (simpl; now destruct c).
    cbn [orb]. apply strip_two.
  - split; [| now right]. unfold codeOfSymbol.
    change ("SZ" ++ c)%string with (String "S"%char (String "Z"%char c)).
    assert (String.prefix "SZ" (String "S"%char (String "Z"%char c)) = true) as Hz
      by (simpl; now destruct c).
    rewrite Hz, orb_true_r. apply strip_two.
Qed.

Lemma prefix_688_6 (code : string) :
  String.prefix "688" code = true -> String.prefix "6" code = true.
Proof.
  destruct code as [| a s]; [discriminate |]. cbn [String.prefix].
  destruct (Ascii.ascii_dec "6"%char a); [| discriminate].
  intros _. now destruct s.
Qed.

Lemma prefix_399_not_index (code : string) :
  String.prefix "399" code = true -> String.eqb code "000001" = false.
Proof.
  intros Hp. destruct (String.eqb_spec code "000001") as [-> | _];
    [discriminate Hp | reflexivity].
Qed.

Lemma prefix_5_not_6 (code : string) :
  String.prefix "5" code = true -> String.prefix "6" code = false.
Proof.
  destruct code as [| a s]; [discriminate |]. cbn [String.prefix].
  destruct (Ascii.ascii_dec "5"%char a) as [<- | _]; [| discriminate].
  reflexivity.
Qed.

Lemma prefix_5_not_index (code : string) :
  String.prefix "5" code = true -> String.eqb code "000001" = false.
Proof.
  intros Hp. destruct (String.eqb_spec code "000001") as [-> | _];
    [discriminate Hp | reflexivity].
Qed.

(** X18: the second quote route sends a code to the Shanghai market ("1.")
    exactly when it starts with 6 or 5 or is 000001, and to Shenzhen ("0.")
    otherwise - the tests for 688 and 399 change nothing; the first route
    agrees with it except on codes starting with 5, which it sends to
    Shenzhen. *)
Theorem exchange_of_a_code (code : string) :
  toSecid code
  = ((if String.prefix "6" code || String.prefix "5" code
         || String.eqb code "000001"
      then "1." else "0.") ++ code)%string
  /\ (market code = "SH" -> toSecid code = ("1." ++ code)%string)
  /\ (String.prefix "5" code = true ->
      market code = "SZ" /\ toSecid code = ("1." ++ code)%string)
  /\ (String.prefix "5" code = false ->
      (market code = "SH" <-> toSecid code = ("1." ++ code)%string)).
Proof.
  assert (toSecid code
          = ((if String.prefix "6" code || String.prefix "5" code
                 || String.eqb code "000001"
              then "1." else "0.") ++ code)%string) as Heq.
  { unfold toSecid.
    destruct (String.prefix "6" code) eqn:H6; [reflexivity |].
    destruct (String.prefix "5" code) eqn:H5; [reflexivity |].
    destruct (String.prefix "688" code) eqn:H688.
    - apply prefix_688_6 in H688. congruence.
    - cbn [orb]. destruct (String.prefix "399" code) eqn:H399.
      + now rewrite (prefix_399_not_index code H399).
      + now destruct (String.eqb code "000001"). }
  split; [exact Heq |]. rewrite Heq. unfold market.
  pose proof (prefix_5_not_6 code) as H56.
  pose proof (prefix_5_not_index code) as H5i.
  split; [| split].
  - destruct (String.prefix "6" code); [reflexivity |].
    destruct (String.eqb code "000001"); [| discriminate].
    intros _. rewrite orb_true_r. reflexivity.
  - intros H5. rewrite (H56 H5), (H5i H5), H5. split; reflexivity.
  - intros H5. rewrite H5.
    destruct (String.prefix "6" code); [split; reflexivity |].
    destruct (String.eqb code "000001"); [split; reflexivity |].
    cbn [orb]. split; intros H; [discriminate H |].
    simpl in H. discriminate H.
Qed.

Lemma exchange_of_a_code_witness :
  market "510300" = "SZ"
  /\ toSecid "510300" = "1.510300"
  /\ toSecid "688981" = "1.688981"
  /\ toSecid "399001" = "0.399001".
Proof.
  destruct (exchange_of_a_code "510300") as (_ & _ & H5 & _).
  destruct (exchange_of_a_code "688981") as (_ & H6 & _).
  destruct (H5 eq_refl) as [Hm Hs].
  split; [exact Hm | split; [exact Hs | split; [exact (H6 eq_refl) |]]].
  reflexivity.
Defined.

End QuoteRouteProps.

(** ** Dashboard trade signals *)

Module DashboardProps.

Import JS JSFacts Legacy Dashboard ExtraScenarios.
Local Open Scope Q_scope.

(** One step of the rule cascade: decide the guard and keep what it says
    about the day's change. *)
Ltac rule :=
  match goal with
  | |- context [if ?c && _ && _ then _ else _] =>
    let E := fresh "E" in
    destruct c eqn:E;
    [apply gtb_gt in E || apply ltb_lt in E
    |apply gtb_le in E || apply ltb_ge in E]; cbn [andb]
  | |- context [if ?c && _ then _ else _] =>
    let E := fresh "E" in
    destruct c eqn:E;
    [apply gtb_gt in E || apply ltb_lt in E
    |apply gtb_le in E || apply ltb_ge in E]; cbn [andb]
  | |- context [if ?c then _ else _] =>
    let E := fresh "E" in destruct c eqn:E
  end.

(** X19: a trade signal carries the code of its holding and a confidence
    between 58 and 82; it is a sell only on a day change above 5 or below -5
    percent and a buy only on a positive day change, so a day change between
    -5 and 0 percent always gives hold. *)
Theorem trade_signal_rules (q : StockQuote.t) (holding : Holding.t) :
  let s := signalFor q holding in
  code s = Holding.code holding
  /\ (58 <= confidence s <= 82)%Z
  /\ (action s = sell -> 5 < StockQuote.percent q \/ StockQuote.percent q < -5)
  /\ (action s = buy -> 0 < StockQuote.percent q)
  /\ (-5 <= StockQuote.percent q -> StockQuote.percent q <= 0 -> action s = hold).
Proof.
  cbv zeta. unfold signalFor. cbv zeta.
  repeat rule; cbn [code confidence action];
    (split; [reflexivity |]); (split; [lia |]);
    repeat split; intros; try discriminate; try reflexivity; try lra;
    try (left; lra); try (right; lra).
Qed.

Lemma trade_signal_rules_witness :
  action (signalFor AnalyzerScenarios.quote_600183 held_600183) = buy
  /\ confidence (signalFor AnalyzerScenarios.quote_600183 held_600183) = 68%Z
  /\ 0 < StockQuote.percent AnalyzerScenarios.quote_600183.
Proof.
  destruct (trade_signal_rules AnalyzerScenarios.quote_600183 held_600183)
    as (_ & _ & _ & Hbuy & _).
  assert (action (signalFor AnalyzerScenarios.quote_600183 held_600183) = buy)
    as Ha by (vm_compute; reflexivity).
  split; [exact Ha | split; [vm_compute; reflexivity | exact (Hbuy Ha)]].
Defined.

Lemma signalFor_confidence (q : StockQuote.t) (holding : Holding.t) :
  (58 <= confidence (signalFor q holding) <= 82)%Z.
Proof.
  unfold signalFor. cbv zeta.
  repeat match goal with
         | |- context [if ?c then _ else _] => destruct c
         end; cbn [confidence]; lia.
Qed.

Lemma signalFor_code (q : StockQuote.t) (holding : Holding.t) :
  code (signalFor q holding) = Holding.code holding.
Proof.
  unfold signalFor. cbv zeta.
  repeat match goal with
         | |- context [if ?c then _ else _] => destruct c
         end; reflexivity.
Qed.

Lemma newSignals_elem holdings quotes (s : TradeSignal) :
  In s (newSignals holdings quotes) ->
  exists q holding, s = signalFor q holding.
Proof.
  unfold newSignals. intros Hin.
  apply list_elem_of_In, list_elem_of_omap in Hin as (holding & _ & Hs).
  destruct (List.find _ quotes) as [q |]; [| discriminate Hs].
  injection Hs as <-. eauto.
Qed.

Lemma newSignals_codes holdings quotes :
  List.map code (newSignals holdings quotes)
  `sublist_of` List.map Holding.code holdings.
Proof.
  unfold newSignals. induction holdings as [| h l IH]; [constructor |].
  cbn [omap list_omap List.map].
  destruct (List.find _ quotes) as [q |].
  - cbn [List.map]. rewrite signalFor_code. now apply sublist_skip.
  - now apply sublist_cons.
Qed.

Lemma dashboard_codes_NoDup : NoDup (List.map Holding.code HOLDINGS).
Proof. apply (bool_decide_unpack _). vm_compute. exact I. Qed.

Lemma countAction_sum (signals : list TradeSignal) :
  (countAction sell signals + countAction buy signals
   <= Z.of_nat (List.length signals))%Z.
Proof.
  unfold countAction. induction signals as [| s l IH]; [simpl; lia |].
  simpl. destruct (action s); simpl in *; lia.
Qed.

(** X20: whatever quotes arrive, an analysis run yields at most one signal
    per holding, in the order of the holdings; the sell, buy and hold counts
    of the summary are non-negative and sum to the number of signals, the
    average confidence is 0 (no signal) or between 58 and 82, and the final
    decision is "keep" exactly when sells and buys are equally many. *)
Theorem dashboard_summary (quotes : list StockQuote.t) :
  let signals := newSignals HOLDINGS quotes in
  let sm := summarize signals in
  List.map code signals `sublist_of` List.map Holding.code HOLDINGS
  /\ NoDup (List.map code signals)
  /\ (List.length signals <= 6)%nat
  /\ (sellCount sm + buyCount sm + holdCount sm
      = Z.of_nat (List.length signals))%Z
  /\ (0 <= holdCount sm)%Z
  /\ (avgConf sm = 0%Z \/ (58 <= avgConf sm <= 82)%Z)
  /\ (overall sm = KeepPositions <-> sellCount sm = buyCount sm)
  /\ (overall sm = ReducePositions <-> (buyCount sm < sellCount sm)%Z).
Proof.
  intros signals sm.
  pose proof (newSignals_codes HOLDINGS quotes) as Hsub. fold signals in Hsub.
  pose proof (countAction_sum signals) as Hsum.
  split; [exact Hsub | split; [| split; [| split; [| split; [| split]]]]].
  - eapply sublist_NoDup; [exact dashboard_codes_NoDup | exact Hsub].
  - apply sublist_length in Hsub. rewrite !length_map in Hsub. exact Hsub.
  - subst sm. unfold summarize. cbn [sellCount buyCount holdCount]. lia.
  - subst sm. unfold summarize. cbn [holdCount]. lia.
  - subst sm. unfold summarize. cbn [avgConf].
    destruct (Z.gtb_spec (Z.of_nat (List.length signals)) 0) as [Hpos | _];
      [| now left].
    right.
    assert (signals <> []) as Hne by (intros Hnil; rewrite Hnil in Hpos; simpl in Hpos; lia).
    destruct (AgentDecisionsMore.mean_bounds
                (fun n => inject_Z (confidence n)) (inject_Z 58) (inject_Z 82)
                signals Hne) as [H1 H2].
    { intros s Hs. rewrite <- !Zle_Qle.
      destruct (newSignals_elem _ _ _ Hs) as (q & holding & ->).
      apply signalFor_confidence. }
    now apply AgentDecisionsMore.Math_round_bounds.
  - subst sm. unfold summarize. cbn [overall sellCount buyCount].
    split.
    + destruct (Z.gtb_spec (countAction sell signals) (countAction buy signals)),
               (Z.gtb_spec (countAction buy signals) (countAction sell signals));
        split; intros; try discriminate; try reflexivity; lia.
    + destruct (Z.gtb_spec (countAction sell signals) (countAction buy signals)),
               (Z.gtb_spec (countAction buy signals) (countAction sell signals));
        split; intros; try discriminate; try reflexivity; lia.
Qed.

Lemma dashboard_summary_witness :
  List.length (newSignals HOLDINGS [AnalyzerScenarios.quote_600183]) = 1%nat
  /\ overall (summarize (newSignals HOLDINGS [AnalyzerScenarios.quote_600183]))
     = AddPositions
  /\ avgConf (summarize (newSignals HOLDINGS [AnalyzerScenarios.quote_600183]))
     = 68%Z
  /\ (overall (summarize (newSignals HOLDINGS [])) = KeepPositions).
Proof.
  destruct (dashboard_summary []) as (_ & _ & _ & _ & _ & _ & [_ Hkeep] & _).
  split; [vm_compute; reflexivity |].
  split; [vm_compute; reflexivity |].
  split; [vm_compute; reflexivity |].
  apply Hkeep. reflexivity.
Defined.

End DashboardProps.
